(** * QTrader examples: indicators and strategies

    A shallow embedding of the example library of QTrader
    ([library/indicators/template.py], [library/strategies/*.py]) and the
    properties of its decision core: agreement of the batch and the
    incremental indicator modes, crossover detection on strictly earlier
    bars, position tracking from fills, and the three signal policies.

    Python objects are records; a method is a function from the object
    to an outcome and the object afterwards.  Dictionaries keyed by
    symbol are [gmap string _]. *)

From Stdlib Require Import ZArith QArith Lia List Ascii String.
From stdpp Require Import base tactics option list gmap strings pretty.

Local Open Scope Z_scope.

(** ** Python primitives *)

Module Py.

(** The exceptions the library can raise. *)
Inductive exn : Type :=
| ValueError (msg : string)
| ZeroDivisionError
| TypeError
| OverflowError
| InvalidOperation.

Inductive result (A : Type) : Type :=
| Ok (a : A)
| Raise (e : exn).
Arguments Ok {A} a.
Arguments Raise {A} e.

(** A method body over an object of type [S]: it returns or raises,
    and leaves the object in some state either way. *)
Definition M (S A : Type) : Type := S -> result A * S.

Definition ret {S A} (a : A) : M S A := fun s => (Ok a, s).
Definition raise {S A} (e : exn) : M S A := fun s => (Raise e, s).
Definition bind {S A B} (m : M S A) (k : A -> M S B) : M S B :=
  fun s => match m s with
           | (Ok a, s') => k a s'
           | (Raise e, s') => (Raise e, s')
           end.
Definition get {S} : M S S := fun s => (Ok s, s).
Definition put {S} (s : S) : M S unit := fun _ => (Ok tt, s).
Definition lift {S A} (r : result A) : M S A := fun s => (r, s).

(** Sequencing of computations that return or raise. *)
#[global] Instance result_ret : MRet result := @Ok.
#[global] Instance result_bind : MBind result := fun A B k r =>
  match r with
  | Ok a => k a
  | Raise e => Raise e
  end.

#[global] Instance M_ret {S} : MRet (M S) := @ret S.
#[global] Instance M_bind {S} : MBind (M S) := fun A B k m => bind m k.

(** [for x in xs: acc = body x acc] *)
Fixpoint for_each {S A Acc} (xs : list A) (body : A -> Acc -> M S Acc)
    (acc : Acc) : M S Acc :=
  match xs with
  | [] => ret acc
  | x :: xs' => bind (body x acc) (for_each xs' body)
  end.

(** [len(l)] *)
Definition len {A} (l : list A) : Z := Z.of_nat (length l).

(** [range(n)] *)
Definition range (n : Z) : list Z := map Z.of_nat (seq 0 (Z.to_nat n)).

(** A slice bound as Python normalises it against the length: negative
    bounds count from the end, and everything is clamped to
    [0 .. len]. *)
Definition norm_index (n i : Z) : Z :=
  if i <? 0 then Z.max 0 (i + n) else Z.min i n.

(** [l[start:stop]] with either bound possibly omitted. *)
Definition slice {A} (l : list A) (start stop : option Z) : list A :=
  let n := len l in
  let a := match start with Some i => norm_index n i | None => 0 end in
  let b := match stop with Some j => norm_index n j | None => n end in
  firstn (Z.to_nat (b - a)) (skipn (Z.to_nat a) l).

End Py.
Import Py.

(** ** Python numbers

    The indicator template is written against whatever objects the bars
    carry as prices and the caller passes as factor: [int], [float],
    [Decimal].  Every arithmetic operator and comparison on them either
    returns or raises ([TypeError] for a [Decimal] with a [float],
    [OverflowError] for a float power out of range, and so on), so the
    template is embedded over any type of values with such operations. *)

Module Num.

Class Ops (val : Type) : Type := {
  of_int : Z -> val;                       (* an [int] such as [0] or [len(w)] *)
  add : val -> val -> result val;          (* [x + y] *)
  sub : val -> val -> result val;          (* [x - y] *)
  mul : val -> val -> result val;          (* [x * y] *)
  truediv : val -> val -> result val;      (* [x / y] *)
  pow_2 : val -> result val;               (* [x ** 2] *)
  pow_half : val -> result val;            (* [x ** 0.5] *)
  le : val -> val -> result bool;          (* [x <= y] *)
  str : val -> string                      (* [f"{x}"] *)
}.

Section Builtins.
Context {val : Type} `{Ops val}.

(** [sum(xs)]: the built-in starts from the integer 0 and adds from the
    left; it stops at the first addition that raises. *)
Fixpoint sum_from (acc : val) (xs : list val) : result val :=
  match xs with
  | [] => Ok acc
  | x :: xs' => acc' ← add acc x; sum_from acc' xs'
  end.

Definition sum (xs : list val) : result val := sum_from (of_int 0) xs.

(** [sum(f(x) for x in xs)]: each term is computed when the sum asks for
    it, just before it is added. *)
Fixpoint sum_of_from (f : val -> result val) (acc : val) (xs : list val)
    : result val :=
  match xs with
  | [] => Ok acc
  | x :: xs' => term ← f x; acc' ← add acc term; sum_of_from f acc' xs'
  end.

Definition sum_of (f : val -> result val) (xs : list val) : result val :=
  sum_of_from f (of_int 0) xs.

End Builtins.
End Num.

(** ** Arithmetic of the strategies

    The strategies add [Decimal] closes, divide the sum by a length and
    compare the quotients; on decimals these operations do not raise,
    except for a division by zero. *)

Class Numeric (num : Type) : Type := {
  of_int : Z -> num;                (* an [int] operand promoted *)
  add : num -> num -> num;          (* [x + y] *)
  div : num -> num -> num;          (* [x / y], for [y] not zero *)
  leb : num -> num -> bool;         (* [x <= y] *)
  ltb : num -> num -> bool          (* [x < y] *)
}.

Section Arith.
Context {num : Type} `{Numeric num}.

(** [sum(xs)]: the built-in starts from the integer 0 and adds from
    the left. *)
Definition sum (xs : list num) : num := fold_left add xs (of_int 0).

(** [x / n] for an integer [n], as in [sum(window) / len(window)]. *)
Definition truediv (x : num) (n : Z) : result num :=
  if n =? 0 then Raise ZeroDivisionError else Ok (div x (of_int n)).
End Arith.

(** The bar of [qtrader.services.data.models]: one period of prices for
    one instrument. *)
Record Bar (num : Type) : Type := mkBar {
  symbol : string;
  timestamp : string;
  open : num;
  high : num;
  low : num;
  close : num;
  volume : Z
}.
Arguments mkBar {num}.
Arguments symbol {num}.
Arguments timestamp {num}.
Arguments open {num}.
Arguments high {num}.
Arguments low {num}.
Arguments close {num}.
Arguments volume {num}.

(** ** [library/indicators/template.py] *)

Module MyCustomIndicator.
Section Defs.
Context {val : Type} `{Num.Ops val}.

Record t : Type := mk {
  period : Z;
  multiplier : val;
  _prices : list val;
  _current_value : option val
}.

Definition set_prices (ps : list val) (self : t) : t :=
  mk (period self) (multiplier self) ps (_current_value self).
Definition set_current_value (v : option val) (self : t) : t :=
  mk (period self) (multiplier self) (_prices self) v.

(** [__init__]: the fields are assigned first and validated after; the
    comparison of the factor with zero can itself raise. *)
Definition __init__ (period : Z) (multiplier : val) : result t :=
  let self := mk period multiplier [] None in
  if period <? 1 then
    Raise (ValueError ("period must be >= 1, got " +:+ pretty period))
  else
    not_positive ← Num.le multiplier (Num.of_int 0);
    if not_positive : bool then
      Raise (ValueError ("multiplier must be > 0, got " +:+ Num.str multiplier))
    else Ok self.

(** The body of the loop of [calculate] at index [i]. *)
Definition calculate_step (prices : list val) (i : Z)
    (results : list (option val)) : M t (list (option val)) :=
  self ← get;
  if i <? period self - 1 then
    mret (results ++ [None])
  else
    let window := slice prices (Some (i - period self + 1)) (Some (i + 1)) in
    total ← lift (Num.sum window);
    mean ← lift (Num.truediv total (Num.of_int (len window)));
    value ← lift (Num.mul mean (multiplier self));
    mret (results ++ [Some value]).

Definition calculate (bars : list (Bar val)) : M t (list (option val)) :=
  match bars with
  | [] => mret []
  | _ =>
    let prices := map close bars in
    for_each (range (len prices)) (calculate_step prices) []
  end.

Definition update (bar : Bar val) : M t (option val) :=
  self ← get;
  put (set_prices (_prices self ++ [close bar]) self);;
  self ← get;
  if len (_prices self) <? period self then
    put (set_current_value None self);;
    mret None
  else
    let window := slice (_prices self) (Some (- period self)) None in
    total ← lift (Num.sum window);
    mean ← lift (Num.truediv total (Num.of_int (len window)));
    value ← lift (Num.mul mean (multiplier self));
    put (set_current_value (Some value) self);;
    self ← get;
    mret (_current_value self).

Definition reset : M t unit :=
  self ← get;
  put (set_prices [] self);;
  self ← get;
  put (set_current_value None self).

Definition value : M t (option val) :=
  self ← get; mret (_current_value self).

Definition is_ready : M t bool :=
  self ← get; mret (len (_prices self) >=? period self).

End Defs.
Arguments t val : clear implicits.
End MyCustomIndicator.

Module MyCustomMultiValueIndicator.
Section Defs.
Context {val : Type} `{Num.Ops val}.

(** The dictionary with the keys ["upper"], ["middle"] and ["lower"]
    that the indicator produces. *)
Record bands : Type := mkBands {
  upper : val;
  middle : val;
  lower : val
}.

Record t : Type := mk {
  period : Z;
  num_std : val;
  _prices : list val;
  _current_value : option bands
}.

Definition set_prices (ps : list val) (self : t) : t :=
  mk (period self) (num_std self) ps (_current_value self).
Definition set_current_value (v : option bands) (self : t) : t :=
  mk (period self) (num_std self) (_prices self) v.

Definition __init__ (period : Z) (num_std : val) : result t :=
  let self := mk period num_std [] None in
  if period <? 2 then
    Raise (ValueError ("period must be >= 2, got " +:+ pretty period))
  else
    not_positive ← Num.le num_std (Num.of_int 0);
    if not_positive : bool then
      Raise (ValueError ("num_std must be > 0, got " +:+ Num.str num_std))
    else Ok self.

Definition calculate_step (prices : list val) (i : Z)
    (results : list (option bands)) : M t (list (option bands)) :=
  self ← get;
  if i <? period self - 1 then
    mret (results ++ [None])
  else
    let window := slice prices (Some (i - period self + 1)) (Some (i + 1)) in
    total ← lift (Num.sum window);
    mid ← lift (Num.truediv total (Num.of_int (len window)));
    squares ← lift (Num.sum_of (fun p => d ← Num.sub p mid; Num.pow_2 d) window);
    variance ← lift (Num.truediv squares (Num.of_int (len window)));
    std_dev ← lift (Num.pow_half variance);
    above ← lift (Num.mul (num_std self) std_dev);
    up ← lift (Num.add mid above);
    below ← lift (Num.mul (num_std self) std_dev);
    low ← lift (Num.sub mid below);
    mret (results ++ [Some {| upper := up; middle := mid; lower := low |}]).

Definition calculate (bars : list (Bar val)) : M t (list (option bands)) :=
  match bars with
  | [] => mret []
  | _ =>
    let prices := map close bars in
    for_each (range (len prices)) (calculate_step prices) []
  end.

Definition update (bar : Bar val) : M t (option bands) :=
  self ← get;
  put (set_prices (_prices self ++ [close bar]) self);;
  self ← get;
  if len (_prices self) <? period self then
    put (set_current_value None self);;
    mret None
  else
    let window := slice (_prices self) (Some (- period self)) None in
    total ← lift (Num.sum window);
    mid ← lift (Num.truediv total (Num.of_int (len window)));
    squares ← lift (Num.sum_of (fun p => d ← Num.sub p mid; Num.pow_2 d) window);
    variance ← lift (Num.truediv squares (Num.of_int (len window)));
    std_dev ← lift (Num.pow_half variance);
    above ← lift (Num.mul (num_std self) std_dev);
    up ← lift (Num.add mid above);
    below ← lift (Num.mul (num_std self) std_dev);
    low ← lift (Num.sub mid below);
    put (set_current_value
           (Some {| upper := up; middle := mid; lower := low |}) self);;
    self ← get;
    mret (_current_value self).

Definition reset : M t unit :=
  self ← get;
  put (set_prices [] self);;
  self ← get;
  put (set_current_value None self).

Definition value : M t (option bands) :=
  self ← get; mret (_current_value self).

Definition is_ready : M t bool :=
  self ← get; mret (len (_prices self) >=? period self).

End Defs.
Arguments t val : clear implicits.
Arguments bands val : clear implicits.
End MyCustomMultiValueIndicator.

(** Feeding bars one at a time: the outcome of every [update] call, in
    order, and the object after the last one.  A call that raises is
    recorded and the stream goes on with the object as the call left it,
    as a caller that catches the exception would see it. *)
Fixpoint feed {S B A} (update : B -> M S A) (bars : list B) (self : S)
    : list (result A) * S :=
  match bars with
  | [] => ([], self)
  | b :: bars' =>
    let '(r, self') := update b self in
    let '(rs, self'') := feed update bars' self' in
    (r :: rs, self'')
  end.

(** ** Exact arithmetic

    The strategies compute on the [Decimal] prices of the bars.  They
    are taken here as exact rationals: the rounding of a sum or a
    quotient to the precision of the decimal context (28 significant
    digits) is not modelled. *)

#[global] Instance Q_numeric : Numeric Q := {|
  of_int := inject_Z;
  add := Qplus;
  div := Qdiv;
  leb := Qle_bool;
  ltb := fun x y => negb (Qle_bool y x)
|}.

(** ** Python numbers, concretely

    The three kinds of number a price or a factor can be, for evaluating
    the indicators: an [int], a [Decimal], a [float].  A decimal and a
    finite float are given by their exact value, and their arithmetic is
    taken exact: rounding to the decimal context or to binary64,
    overflow and infinities are not modelled.  What is modelled is which
    operand kinds an operator accepts, what kind it returns, and the
    unordered float NaN. *)

Inductive pynum : Type :=
| PyInt (n : Z)
| PyDecimal (q : Q)
| PyFloat (x : Q)
| PyNaN.

Module PyNum.

(** The operand of a binary operator, once both kinds are known to go
    together: an [int] goes with everything, a [Decimal] with a
    [Decimal], a [float] with a [float]. *)
Inductive operands : Type :=
| Ints (m n : Z)
| Decimals (p q : Q)
| Floats (x y : option Q)          (* [None] is NaN *)
| Mismatch.

Definition as_float (a : pynum) : option (option Q) :=
  match a with
  | PyInt n => Some (Some (inject_Z n))
  | PyFloat x => Some (Some x)
  | PyNaN => Some None
  | PyDecimal _ => None
  end.

Definition coerce (a b : pynum) : operands :=
  match a, b with
  | PyInt m, PyInt n => Ints m n
  | PyInt m, PyDecimal q => Decimals (inject_Z m) q
  | PyDecimal p, PyInt n => Decimals p (inject_Z n)
  | PyDecimal p, PyDecimal q => Decimals p q
  | PyDecimal _, (PyFloat _ | PyNaN) => Mismatch
  | (PyFloat _ | PyNaN), PyDecimal _ => Mismatch
  | _, _ =>
    match as_float a, as_float b with
    | Some x, Some y => Floats x y
    | _, _ => Mismatch
    end
  end.

Definition of_float (x : option Q) : pynum :=
  match x with Some q => PyFloat q | None => PyNaN end.

Definition lift2 (f : Q -> Q -> Q) (x y : option Q) : option Q :=
  match x, y with Some p, Some q => Some (f p q) | _, _ => None end.

(** [x + y], [x - y], [x * y] *)
Definition arith (fz : Z -> Z -> Z) (fq : Q -> Q -> Q) (a b : pynum) : result pynum :=
  match coerce a b with
  | Ints m n => Ok (PyInt (fz m n))
  | Decimals p q => Ok (PyDecimal (fq p q))
  | Floats x y => Ok (of_float (lift2 fq x y))
  | Mismatch => Raise TypeError
  end.

Definition is_zero (q : Q) : bool := Qnum q =? 0.

(** [x / y]: true division; two ints give a float. *)
Definition truediv (a b : pynum) : result pynum :=
  match coerce a b with
  | Ints m n =>
    if n =? 0 then Raise ZeroDivisionError
    else Ok (PyFloat (inject_Z m / inject_Z n))
  | Decimals p q =>
    if is_zero q then Raise ZeroDivisionError else Ok (PyDecimal (p / q))
  | Floats x y =>
    match y with
    | Some q => if is_zero q then Raise ZeroDivisionError
                else Ok (of_float (lift2 Qdiv x y))
    | None => Ok PyNaN
    end
  | Mismatch => Raise TypeError
  end.

(** [x ** 2] *)
Definition pow_2 (a : pynum) : result pynum :=
  match a with
  | PyInt n => Ok (PyInt (n * n))
  | PyDecimal q => Ok (PyDecimal (q * q))
  | PyFloat x => Ok (PyFloat (x * x))
  | PyNaN => Ok PyNaN
  end.

(** The root of a float that is not negative, exact when it is a
    multiple of [2^-60] and rounded down to one otherwise.  The root of
    a negative float is a complex number, which this type does not
    have; the indicators never ask for one, a variance not being
    negative. *)
Definition float_root (x : Q) : pynum :=
  if Qnum x <? 0 then PyNaN
  else PyFloat (Z.sqrt (Qnum x * 2 ^ 120 / Z.pos (Qden x)) # 2 ^ 60).

(** [x ** 0.5]: a [Decimal] does not take a float exponent. *)
Definition pow_half (a : pynum) : result pynum :=
  match a with
  | PyDecimal _ => Raise TypeError
  | PyInt n => Ok (float_root (inject_Z n))
  | PyFloat x => Ok (float_root x)
  | PyNaN => Ok PyNaN
  end.

(** [x <= y]: false whenever a float NaN is involved; a [Decimal]
    compares with a float by value, and refuses NaN. *)
Definition le (a b : pynum) : result bool :=
  match a, b with
  | PyDecimal p, PyFloat y => Ok (Qle_bool p y)
  | PyFloat x, PyDecimal q => Ok (Qle_bool x q)
  | PyDecimal _, PyNaN | PyNaN, PyDecimal _ => Raise InvalidOperation
  | _, _ =>
    match coerce a b with
    | Ints m n => Ok (m <=? n)
    | Decimals p q => Ok (Qle_bool p q)
    | Floats (Some x) (Some y) => Ok (Qle_bool x y)
    | Floats _ _ => Ok false
    | Mismatch => Raise TypeError
    end
  end.

Definition str (a : pynum) : string :=
  let show (q : Q) := pretty (Qnum q) +:+ "/" +:+ pretty (Z.pos (Qden q)) in
  match a with
  | PyInt n => pretty n
  | PyDecimal q => show q
  | PyFloat x => show x
  | PyNaN => "nan"
  end.

End PyNum.

#[global] Instance pynum_ops : Num.Ops pynum := {|
  Num.of_int := PyInt;
  Num.add := PyNum.arith Z.add Qplus;
  Num.sub := PyNum.arith Z.sub Qminus;
  Num.mul := PyNum.arith Z.mul Qmult;
  Num.truediv := PyNum.truediv;
  Num.pow_2 := PyNum.pow_2;
  Num.pow_half := PyNum.pow_half;
  Num.le := PyNum.le;
  Num.str := PyNum.str
|}.

(** ** The strategy interface of [qtrader]

    What the strategies consume and produce: bar events, fill events,
    and the context through which they read history and emit signals. *)

Abbreviation PriceBarEvent := (Bar Q).

Record FillEvent : Type := mkFill {
  fill_symbol : string;
  side : string;                    (* ["buy"] or ["sell"] *)
  filled_quantity : Q;
  fill_price : Q;
  fill_timestamp : string
}.

Inductive SignalIntention : Type :=
| OPEN_LONG | CLOSE_LONG | OPEN_SHORT | CLOSE_SHORT.

(** The sentence given as [reason], kept as its parts. *)
Inductive Reason : Type :=
| GoldenCross (fast_sma slow_sma : Q)
| DeathCross (fast_sma slow_sma : Q)
| InitialPurchase
| MondayEntry (week_key : string)
| FridayExit (week_key : string).

Inductive MetaValue : Type :=
| MetaStr (s : string)
| MetaNum (x : Q).

Record Signal : Type := mkSignal {
  sig_timestamp : string;
  sig_symbol : string;
  intention : SignalIntention;
  price : Q;
  confidence : Q;
  reason : Reason;
  metadata : list (string * MetaValue)
}.

(** The context handed to every callback.  [get_bars] and [get_price]
    are the host's; the two logs record the calls of [emit_signal] and
    [track_indicators], oldest first. *)
Record Context : Type := mkContext {
  get_bars : string -> Z -> option (list PriceBarEvent);
  get_price : string -> option Q;
  emitted : list Signal;
  tracked : list (list (string * Q))
}.

(** A callback runs on the strategy object and the context together. *)
Definition Callback (S : Type) : Type := M (S * Context) unit.

Section ContextCalls.
Context {S : Type}.

Definition this : M (S * Context) S := w ← get; mret (fst w).
Definition context : M (S * Context) Context := w ← get; mret (snd w).
Definition assign (f : S -> S) : M (S * Context) unit :=
  w ← get; put (f (fst w), snd w).

Definition emit_signal (s : Signal) : M (S * Context) unit :=
  w ← get;
  let c := snd w in
  put (fst w, mkContext (get_bars c) (get_price c) (emitted c ++ [s]) (tracked c)).

Definition track_indicators (indicators : list (string * Q))
    : M (S * Context) unit :=
  w ← get;
  let c := snd w in
  put (fst w, mkContext (get_bars c) (get_price c) (emitted c)
                        (tracked c ++ [indicators])).
End ContextCalls.

(** ** [library/strategies/sma_crossover.py] *)

Module SMACrossover.

Record SMAConfig : Type := mkConfig {
  name : string;
  display_name : string;
  universe : list string;
  fast_period : Z;
  slow_period : Z;
  confidence : Q;
  log_indicators : bool
}.

Definition CONFIG : SMAConfig :=
  mkConfig "sma_crossover" "SMA Crossover" [] 10 50 1 true.

Record t : Type := mk {
  config : SMAConfig;
  _positions : gmap string (option string)
}.

Definition __init__ (config : SMAConfig) : t := mk config ∅.

(** [d.get(symbol, None)] *)
Definition position_of (self : t) (symbol : string) : option string :=
  default None (_positions self !! symbol).

Definition set_position (symbol : string) (p : option string) (self : t) : t :=
  mk (config self) (<[symbol := p]> (_positions self)).

Definition on_position_filled (event : FillEvent) : Callback t :=
  self ← this;
  let symbol := fill_symbol event in
  let side := side event in
  let current_position := position_of self symbol in
  if String.eqb side "buy" then
    if bool_decide (current_position = Some "short")
    then assign (set_position symbol None)
    else assign (set_position symbol (Some "long"))
  else if String.eqb side "sell" then
    if bool_decide (current_position = Some "long")
    then assign (set_position symbol None)
    else assign (set_position symbol (Some "short"))
  else mret tt.

(** The four price windows [on_bar] takes out of the bars it was
    given, in the order it builds them. *)
Definition current_fast_prices (cfg : SMAConfig) (bars : list PriceBarEvent) : list Q :=
  let current_bars := slice bars None (Some (-1)) in
  map close (slice current_bars (Some (- fast_period cfg)) None).
Definition current_slow_prices (cfg : SMAConfig) (bars : list PriceBarEvent) : list Q :=
  let current_bars := slice bars None (Some (-1)) in
  map close current_bars.
Definition prev_fast_prices (cfg : SMAConfig) (bars : list PriceBarEvent) : list Q :=
  let prev_bars := slice bars None (Some (-2)) in
  map close (slice prev_bars (Some (- fast_period cfg)) None).
Definition prev_slow_prices (cfg : SMAConfig) (bars : list PriceBarEvent) : list Q :=
  let prev_bars := slice bars None (Some (-2)) in
  map close prev_bars.

Definition golden_cross (prev_fast_sma prev_slow_sma fast_sma slow_sma : Q) : bool :=
  leb prev_fast_sma prev_slow_sma && ltb slow_sma fast_sma.
Definition death_cross (prev_fast_sma prev_slow_sma fast_sma slow_sma : Q) : bool :=
  leb prev_slow_sma prev_fast_sma && ltb fast_sma slow_sma.

Definition cross_metadata (fast_sma slow_sma prev_fast_sma prev_slow_sma : Q)
    (crossover_type : string) : list (string * MetaValue) :=
  [("fast_sma", MetaNum fast_sma); ("slow_sma", MetaNum slow_sma);
   ("prev_fast_sma", MetaNum prev_fast_sma);
   ("prev_slow_sma", MetaNum prev_slow_sma);
   ("crossover_type", MetaStr crossover_type)].

Definition on_bar (event : PriceBarEvent) : Callback t :=
  self ← this;
  ctx ← context;
  let cfg := config self in
  let symbol := symbol event in
  match get_bars ctx symbol (slow_period cfg + 1) with
  | None => mret tt
  | Some bars =>
    if len bars <? slow_period cfg + 1 then mret tt else
    fast_sma ← lift (truediv (sum (current_fast_prices cfg bars))
                             (len (current_fast_prices cfg bars)));
    slow_sma ← lift (truediv (sum (current_slow_prices cfg bars))
                             (len (current_slow_prices cfg bars)));
    prev_fast_sma ← lift (truediv (sum (prev_fast_prices cfg bars))
                                  (len (prev_fast_prices cfg bars)));
    prev_slow_sma ← lift (truediv (sum (prev_slow_prices cfg bars))
                                  (len (prev_slow_prices cfg bars)));
    let golden := golden_cross prev_fast_sma prev_slow_sma fast_sma slow_sma in
    let death := death_cross prev_fast_sma prev_slow_sma fast_sma slow_sma in
    track_indicators [("fast_sma", fast_sma); ("slow_sma", slow_sma)];;
    match get_price ctx symbol with
    | None => mret tt
    | Some current_price =>
      let current_position := position_of self symbol in
      if golden then
        if negb (bool_decide (current_position = Some "long")) then
          emit_signal
            (mkSignal (timestamp event) symbol OPEN_LONG current_price
               (confidence cfg) (GoldenCross fast_sma slow_sma)
               (cross_metadata fast_sma slow_sma prev_fast_sma prev_slow_sma
                  "golden"))
        else mret tt
      else if death then
        if bool_decide (current_position = Some "long") then
          emit_signal
            (mkSignal (timestamp event) symbol CLOSE_LONG current_price
               (confidence cfg) (DeathCross fast_sma slow_sma)
               (cross_metadata fast_sma slow_sma prev_fast_sma prev_slow_sma
                  "death"))
        else mret tt
      else mret tt
    end
  end.

End SMACrossover.

(** ** [library/strategies/buy_and_hold.py] *)

Module BuyAndHoldStrategy.

Record BuyAndHoldConfig : Type := mkConfig {
  name : string;
  display_name : string;
  confidence : Q;
  log_indicators : bool
}.

Definition CONFIG : BuyAndHoldConfig :=
  mkConfig "buy_and_hold" "Buy and Hold" 1 false.

Record t : Type := mk {
  config : BuyAndHoldConfig;
  _bought : bool
}.

Definition __init__ (config : BuyAndHoldConfig) : t := mk config false.

(** [str] is the built-in that renders the close as text for the
    metadata. *)
Definition on_bar (str : Q -> string) (event : PriceBarEvent) : Callback t :=
  self ← this;
  if _bought self then mret tt
  else
    emit_signal
      (mkSignal (timestamp event) (symbol event) OPEN_LONG (close event)
         (confidence (config self)) InitialPurchase
         [("price", MetaStr (str (close event)))]);;
    assign (fun self => mk (config self) true).

(** The class does not override [on_position_filled]: a fill reaches
    the callback of the base class, which does nothing. *)
Definition on_position_filled (event : FillEvent) : Callback t := mret tt.

End BuyAndHoldStrategy.

(** ** The calendar of Python's [datetime]

    The proleptic Gregorian calendar as the standard library computes
    it: day ordinals, the weekday, and the ISO year and week. *)

Module datetime.

Record t : Type := mk {
  year : Z;
  month : Z;
  day : Z;
  hour : Z;
  minute : Z;
  second : Z
}.

Definition MINYEAR : Z := 1.
Definition MAXYEAR : Z := 9999.

Definition _DAYS_IN_MONTH : list Z :=
  [-1; 31; 28; 31; 30; 31; 30; 31; 31; 30; 31; 30; 31].

Definition _is_leap (year : Z) : bool :=
  (year mod 4 =? 0) && (negb (year mod 100 =? 0) || (year mod 400 =? 0)).

Definition _days_in_month (year month : Z) : Z :=
  if (month =? 2) && _is_leap year then 29
  else nth (Z.to_nat month) _DAYS_IN_MONTH 0.

(** Whether the constructor accepts the date fields; it raises
    [ValueError] otherwise. *)
Definition _check_date_fields (year month day : Z) : bool :=
  (MINYEAR <=? year) && (year <=? MAXYEAR) &&
  (1 <=? month) && (month <=? 12) &&
  (1 <=? day) && (day <=? _days_in_month year month).

Definition _days_before_year (year : Z) : Z :=
  let y := year - 1 in
  y * 365 + y / 4 - y / 100 + y / 400.

Definition _DAYS_BEFORE_MONTH : list Z :=
  [-1; 0; 31; 59; 90; 120; 151; 181; 212; 243; 273; 304; 334].

Definition _days_before_month (year month : Z) : Z :=
  nth (Z.to_nat month) _DAYS_BEFORE_MONTH 0
  + (if (2 <? month) && _is_leap year then 1 else 0).

Definition _ymd2ord (year month day : Z) : Z :=
  _days_before_year year + _days_before_month year month + day.

Definition toordinal (d : t) : Z := _ymd2ord (year d) (month d) (day d).

(** 0 is Monday, 6 is Sunday. *)
Definition weekday (d : t) : Z := (toordinal d + 6) mod 7.

Definition _isoweek1monday (year : Z) : Z :=
  let THURSDAY := 3 in
  let firstday := _ymd2ord year 1 1 in
  let firstweekday := (firstday + 6) mod 7 in
  let week1monday := firstday - firstweekday in
  if THURSDAY <? firstweekday then week1monday + 7 else week1monday.

(** [(ISO year, ISO week, ISO weekday)] *)
Definition isocalendar (d : t) : Z * Z * Z :=
  let year := year d in
  let week1monday := _isoweek1monday year in
  let today := toordinal d in
  let week := (today - week1monday) / 7 in
  let day := (today - week1monday) mod 7 in
  if week <? 0 then
    let year := year - 1 in
    let week1monday := _isoweek1monday year in
    let week := (today - week1monday) / 7 in
    let day := (today - week1monday) mod 7 in
    (year, week + 1, day + 1)
  else if (52 <=? week) && (_isoweek1monday (year + 1) <=? today) then
    (year + 1, 0 + 1, day + 1)
  else (year, week + 1, day + 1).

End datetime.

(** [s.replace("Z", "+00:00")] *)
Fixpoint replace_Z (s : string) : string :=
  match s with
  | EmptyString => EmptyString
  | String c s' =>
    if Ascii.eqb c "Z"%char then "+00:00" +:+ replace_Z s'
    else String c (replace_Z s')
  end.

(** [f"{n:02d}"] *)
Definition format_02d (n : Z) : string :=
  if (0 <=? n) && (n <? 10) then "0" +:+ pretty n else pretty n.

(** ** [library/strategies/weekly_monday_friday.py] *)

Module WeeklyMondayFriday.
Section Defs.

(** [datetime.fromisoformat] of the standard library: the parsed
    timestamp, or the [ValueError] it raises on a malformed string. *)
Variable fromisoformat : string -> result datetime.t.

Record WeeklyMondayFridayConfig : Type := mkConfig {
  name : string;
  display_name : string;
  universe : list string;
  confidence : Q;
  log_indicators : bool
}.

Definition CONFIG : WeeklyMondayFridayConfig :=
  mkConfig "weekly_monday_friday" "Weekly Monday-Friday" [] 1 false.

Record t : Type := mk {
  config : WeeklyMondayFridayConfig;
  _positions : gmap string bool;
  _traded_this_week : gmap string string
}.

Definition __init__ (config : WeeklyMondayFridayConfig) : t := mk config ∅ ∅.

Definition set_position (symbol : string) (b : bool) (self : t) : t :=
  mk (config self) (<[symbol := b]> (_positions self)) (_traded_this_week self).
Definition set_traded (symbol week_key : string) (self : t) : t :=
  mk (config self) (_positions self) (<[symbol := week_key]> (_traded_this_week self)).

Definition on_position_filled (event : FillEvent) : Callback t :=
  let symbol := fill_symbol event in
  let side := side event in
  if String.eqb side "buy" then assign (set_position symbol true)
  else if String.eqb side "sell" then assign (set_position symbol false)
  else mret tt.

Definition _get_week_key (timestamp : datetime.t) : string :=
  let '(year, week, _) := datetime.isocalendar timestamp in
  pretty year +:+ "-W" +:+ format_02d week.

Definition week_metadata (weekday week_key : string) : list (string * MetaValue) :=
  [("weekday", MetaStr weekday); ("week", MetaStr week_key);
   ("strategy", MetaStr "weekly_monday_friday")].

Definition on_bar (event : PriceBarEvent) : Callback t :=
  self ← this;
  ctx ← context;
  let symbol := symbol event in
  let event_timestamp := timestamp event in
  timestamp ← lift (fromisoformat (replace_Z event_timestamp));
  let weekday := datetime.weekday timestamp in
  let has_position := default false (_positions self !! symbol) in
  let week_key := _get_week_key timestamp in
  let last_trade_week := _traded_this_week self !! symbol in
  match get_price ctx symbol with
  | None => mret tt
  | Some current_price =>
    if weekday =? 0 then
      if negb has_position && negb (bool_decide (last_trade_week = Some week_key)) then
        emit_signal
          (mkSignal event_timestamp symbol OPEN_LONG current_price
             (confidence (config self)) (MondayEntry week_key)
             (week_metadata "Monday" week_key));;
        assign (set_traded symbol week_key)
      else mret tt
    else if weekday =? 4 then
      if has_position then
        emit_signal
          (mkSignal event_timestamp symbol CLOSE_LONG current_price
             (confidence (config self)) (FridayExit week_key)
             (week_metadata "Friday" week_key))
      else mret tt
    else mret tt
  end.

End Defs.
End WeeklyMondayFriday.

(** ** The host loop

    The strategies are driven from outside: the host delivers bars and
    fills in order.  For one instrument, the context serves the bars
    delivered so far (the current one last) and the close of the current
    bar as the current price. *)

Inductive Event : Type :=
| OnBar (bar : PriceBarEvent)
| OnFill (fill : FillEvent).

(** The context at the moment a bar is delivered: [history] are the bars
    up to and including it.  [get_bars(symbol, n)] gives the [n] most
    recent of them, fewer when there are fewer. *)
Definition context_at (history : list PriceBarEvent) (c : Context) : Context :=
  mkContext
    (fun _ n => if n <=? 0 then Some []
                else Some (slice history (Some (- n)) None))
    (fun _ => close <$> last history)
    (emitted c) (tracked c).

Definition empty_context : Context :=
  mkContext (fun _ _ => None) (fun _ => None) [] [].

(** Deliver events to a strategy in order.  An exception in a callback
    ends the run. *)
Fixpoint run {S} (on_bar : PriceBarEvent -> Callback S)
    (on_position_filled : FillEvent -> Callback S)
    (events : list Event) (history : list PriceBarEvent) (w : S * Context)
    : result unit * (S * Context) :=
  match events with
  | [] => (Ok tt, w)
  | OnBar bar :: rest =>
    let history' := history ++ [bar] in
    match on_bar bar (fst w, context_at history' (snd w)) with
    | (Ok _, w') => run on_bar on_position_filled rest history' w'
    | (Raise e, w') => (Raise e, w')
    end
  | OnFill fill :: rest =>
    match on_position_filled fill w with
    | (Ok _, w') => run on_bar on_position_filled rest history w'
    | (Raise e, w') => (Raise e, w')
    end
  end.

(** ** The rolling statistic, as the design states it

    Position [i] of a rolling statistic of period [N] is "not ready" for
    [i < N - 1] and otherwise computed from the window [[i-N+1, i]]; the
    computation returns a value or raises. *)

Section Rolling.
Context {val : Type} `{Num.Ops val}.

(** The [N] prices ending at index [i]. *)
Definition trailing_window (N : Z) (prices : list val) (i : nat) : list val :=
  firstn (Z.to_nat N) (skipn (i + 1 - Z.to_nat N) prices).

Definition spec_rolling {A} (f : list val -> result A) (N : Z) (prices : list val)
    (i : nat) : result (option A) :=
  if Z.of_nat i <? N - 1 then Ok None
  else v ← f (trailing_window N prices i); Ok (Some v).

(** Mean of the window, scaled. *)
Definition spec_scaled_mean (multiplier : val) (window : list val) : result val :=
  total ← Num.sum window;
  mean ← Num.truediv total (Num.of_int (len window));
  Num.mul mean multiplier.

(** Mean of the window and the bands at [k] population standard
    deviations around it. *)
Definition spec_bands (k : val) (window : list val)
    : result (MyCustomMultiValueIndicator.bands val) :=
  total ← Num.sum window;
  mean ← Num.truediv total (Num.of_int (len window));
  squares ← Num.sum_of (fun p => d ← Num.sub p mean; Num.pow_2 d) window;
  variance ← Num.truediv squares (Num.of_int (len window));
  stddev ← Num.pow_half variance;
  width ← Num.mul k stddev;
  up ← Num.add mean width;
  width' ← Num.mul k stddev;
  low ← Num.sub mean width';
  Ok (MyCustomMultiValueIndicator.mkBands up mean low).

(** What an indicator object is expected to return, or raise, at index
    [i] of a price series, given its parameters. *)
Definition expected_value (self : MyCustomIndicator.t val) (prices : list val)
    (i : nat) : result (option val) :=
  spec_rolling (spec_scaled_mean (MyCustomIndicator.multiplier self))
               (MyCustomIndicator.period self) prices i.

Definition expected_bands (self : MyCustomMultiValueIndicator.t val)
    (prices : list val) (i : nat)
    : result (option (MyCustomMultiValueIndicator.bands val)) :=
  spec_rolling (spec_bands (MyCustomMultiValueIndicator.num_std self))
               (MyCustomMultiValueIndicator.period self) prices i.
End Rolling.

(** The values of a list of outcomes when none is an exception, and the
    first exception otherwise. *)
Fixpoint collect {A} (outcomes : list (result A)) : result (list A) :=
  match outcomes with
  | [] => Ok []
  | Ok a :: rest => rest' ← collect rest; Ok (a :: rest')
  | Raise e :: _ => Raise e
  end.

(** The window of [size] bars of a history that ends [back] bars before
    its last bar: with the bar being decided on last, at index [t], the
    window for [back = 1] ends at bar [t - 1], the one for [back = 2] at
    bar [t - 2]. *)
Definition window_ending {A} (size back : nat) (history : list A) : list A :=
  skipn (length history - back - size) (firstn (length history - back) history).

(** What each delivered event made the strategy emit: one entry per
    event, in order, up to and including an event whose callback
    raised. *)
Fixpoint outputs {S} (on_bar : PriceBarEvent -> Callback S)
    (on_position_filled : FillEvent -> Callback S)
    (events : list Event) (history : list PriceBarEvent) (w : S * Context)
    : list (list SignalIntention) :=
  match events with
  | [] => []
  | OnBar bar :: rest =>
    let history' := history ++ [bar] in
    let '(r, w') := on_bar bar (fst w, context_at history' (snd w)) in
    let out := map intention (skipn (length (emitted (snd w))) (emitted (snd w'))) in
    match r with
    | Ok _ => out :: outputs on_bar on_position_filled rest history' w'
    | Raise _ => [out]
    end
  | OnFill fill :: rest =>
    let '(r, w') := on_position_filled fill w in
    let out := map intention (skipn (length (emitted (snd w))) (emitted (snd w'))) in
    match r with
    | Ok _ => out :: outputs on_bar on_position_filled rest history w'
    | Raise _ => [out]
    end
  end.

(** ** The position state machine, as the design states it *)

Inductive Position : Type := Flat | Long | Short.
Inductive Side : Type := Buy | Sell.

Definition spec_fill (p : Position) (s : Side) : Position :=
  match s, p with
  | Buy, Short => Flat
  | Buy, (Flat | Long) => Long
  | Sell, Long => Flat
  | Sell, (Flat | Short) => Short
  end.

(** How the strategy stores a position, and how a fill names its side. *)
Definition stored (p : Position) : option string :=
  match p with
  | Flat => None
  | Long => Some "long"
  | Short => Some "short"
  end.

Definition side_name (s : Side) : string :=
  match s with Buy => "buy" | Sell => "sell" end.

(** A fill of the given side for the given symbol; the other fields are
    free. *)
Definition fill_of (symbol : string) (quantity price : Q) (timestamp : string)
    (s : Side) : FillEvent :=
  mkFill symbol (side_name s) quantity price timestamp.

(** The side a fill event names, if it is one of the two. *)
Definition side_of (fill : FillEvent) : option Side :=
  if String.eqb (side fill) "buy" then Some Buy
  else if String.eqb (side fill) "sell" then Some Sell
  else None.

(** The position of [symbol] after a sequence of fills, by the table:
    fills of other instruments do not count. *)
Definition spec_position (symbol : string) (fills : list FillEvent)
    (start : Position) : Position :=
  fold_left
    (fun p fill =>
       if String.eqb (fill_symbol fill) symbol then
         match side_of fill with Some s => spec_fill p s | None => p end
       else p)
    fills start.

(** The one signal of the buy-and-hold strategy, for the bar it is
    emitted on. *)
Definition initial_purchase (str : Q -> string)
    (cfg : BuyAndHoldStrategy.BuyAndHoldConfig) (bar : PriceBarEvent) : Signal :=
  mkSignal (timestamp bar) (symbol bar) OPEN_LONG (close bar)
    (BuyAndHoldStrategy.confidence cfg) InitialPurchase
    [("price", MetaStr (str (close bar)))].

(** ** Trailing means over strictly earlier closes *)

(** The mean of the [k] closes before index [t], when there are that
    many. *)
Definition prior_mean (k : nat) (closes : list Q) (t : nat) : option Q :=
  if (t <? k)%nat || (k =? 0)%nat then None
  else Some (sum (firstn k (skipn (t - k) closes)) / inject_Z (Z.of_nat k))%Q.

Definition fast_exceeds_slow (fast slow : nat) (closes : list Q) (t : nat) : Prop :=
  match prior_mean fast closes t, prior_mean slow closes t with
  | Some f, Some s => (s < f)%Q
  | _, _ => False
  end.

(** ** The calendar policy, as the design states it

    What a bar makes the policy emit, from its weekday, whether a
    position is held, and whether the week was already acted on. *)
Definition spec_calendar (weekday : Z) (positioned acted : bool)
    : list SignalIntention :=
  if weekday =? 0 then
    if negb positioned && negb acted then [OPEN_LONG] else []
  else if weekday =? 4 then
    if positioned then [CLOSE_LONG] else []
  else [].

(** Whether the strategy holds a position for the symbol, and whether it
    has acted for it in the week of the key, as it reads them from its
    two dictionaries. *)
Definition positioned (self : WeeklyMondayFriday.t) (symbol : string) : bool :=
  default false (WeeklyMondayFriday._positions self !! symbol).
Definition acted (self : WeeklyMondayFriday.t) (symbol week_key : string) : bool :=
  bool_decide (WeeklyMondayFriday._traded_this_week self !! symbol = Some week_key).

(** *** The period

    ISO 8601 counts weeks from Monday to Sunday, and its year and week
    number name such a week.  [calendar_week] numbers these weeks
    directly, from the week of 0001-01-01 (ordinal 1, a Monday);
    [iso_year_week] is the name Python gives. *)
Definition calendar_week (d : datetime.t) : Z := (datetime.toordinal d - 1) / 7.

Definition iso_year_week (d : datetime.t) : Z * Z :=
  let '(year, week, _) := datetime.isocalendar d in (year, week).

(** Every [datetime] object has passed the constructor's check. *)
Definition valid_date (d : datetime.t) : Prop :=
  datetime._check_date_fields (datetime.year d) (datetime.month d) (datetime.day d)
  = true.

(** The strategy's record for a symbol is that of an entry on the day
    [last], or of no entry yet. *)
Definition last_entry (self : WeeklyMondayFriday.t) (symbol : string)
    (last : option datetime.t) : Prop :=
  WeeklyMondayFriday._traded_this_week self !! symbol
  = WeeklyMondayFriday._get_week_key <$> last /\
  from_option valid_date True last.

(** *** The policy over a run

    Per instrument, whether a position is held and the set of periods
    already acted in; one list of intentions per delivered event. *)
Definition spec_apply_fill (fill : FillEvent) (held : gset string) : gset string :=
  if String.eqb (side fill) "buy" then {[ fill_symbol fill ]} ∪ held
  else if String.eqb (side fill) "sell" then held ∖ {[ fill_symbol fill ]}
  else held.

Fixpoint spec_week_run (date_of : PriceBarEvent -> datetime.t) (events : list Event)
    (held : gset string) (marked : gset (string * Z))
    : list (list SignalIntention) :=
  match events with
  | [] => []
  | OnBar bar :: rest =>
    let day := date_of bar in
    let period := calendar_week day in
    let positioned := bool_decide (symbol bar ∈ held) in
    let acted := bool_decide ((symbol bar, period) ∈ marked) in
    spec_calendar (datetime.weekday day) positioned acted ::
    spec_week_run date_of rest held
      (if (datetime.weekday day =? 0) && negb positioned && negb acted
       then {[ (symbol bar, period) ]} ∪ marked else marked)
  | OnFill fill :: rest =>
    [] :: spec_week_run date_of rest (spec_apply_fill fill held) marked
  end.

(** No later bar of the instrument lies in a week before [week]. *)
Definition not_before (date_of : PriceBarEvent -> datetime.t) (sym : string)
    (week : Z) (later : list Event) : bool :=
  forallb (fun e =>
             match e with
             | OnBar bar =>
               negb (String.eqb (symbol bar) sym)
               || (week <=? calendar_week (date_of bar))
             | OnFill _ => true
             end) later.

(** The bars of each instrument never go back to an earlier week, as
    when they are delivered in time order. *)
Fixpoint weeks_in_order (date_of : PriceBarEvent -> datetime.t)
    (events : list Event) : bool :=
  match events with
  | [] => true
  | OnBar bar :: rest =>
    not_before date_of (symbol bar) (calendar_week (date_of bar)) rest
    && weeks_in_order date_of rest
  | OnFill _ :: rest => weeks_in_order date_of rest
  end.

(** How the strategy's two dictionaries stand to the held positions and
    the marked periods during such a run. *)
Definition guard_inv (date_of : PriceBarEvent -> datetime.t)
    (self : WeeklyMondayFriday.t) (held : gset string)
    (marked : gset (string * Z)) (rest : list Event) : Prop :=
  (forall sym, positioned self sym = bool_decide (sym ∈ held)) /\
  (forall sym,
     match WeeklyMondayFriday._traded_this_week self !! sym with
     | None => forall week, (sym, week) ∉ marked
     | Some key =>
       exists d, valid_date d /\ key = WeeklyMondayFriday._get_week_key d /\
         (sym, calendar_week d) ∈ marked /\
         (forall week, (sym, week) ∈ marked -> week <= calendar_week d) /\
         not_before date_of sym (calendar_week d) rest = true
     end).

(** Strings without the letter that separates year and week in a week
    key. *)
Fixpoint free_of_W (s : string) : Prop :=
  match s with
  | EmptyString => True
  | String c s' => c <> "W"%char /\ free_of_W s'
  end.

(** ** Reading a timestamp

    A reader for the layouts
    [YYYY-MM-DD[*HH[:MM[:SS[.fff[fff]]]][+HH:MM[:SS[.ffffff]]]]] that the
    documentation of [datetime.fromisoformat] gives for Python 3.7 to
    3.10, [*] being any one character; it raises [ValueError] on a
    string that is not of this layout, on trailing text, and on a date,
    time or offset out of range.  Fractions of a second and the offset
    are checked and then dropped: the weekday and the ISO week of a
    [datetime] are those of its own date fields.  Later versions of
    Python read further layouts, which this reader does not cover; it
    stands in for [fromisoformat] only where a run is evaluated on
    sample timestamps. *)

Definition digit_value (c : ascii) : option Z :=
  let n := Z.of_nat (nat_of_ascii c) - 48 in
  if (0 <=? n) && (n <=? 9) then Some n else None.

Fixpoint read_digits (count : nat) (acc : Z) (s : string) : option (Z * string) :=
  match count, s with
  | O, _ => Some (acc, s)
  | S count', String c s' =>
    match digit_value c with
    | Some d => read_digits count' (10 * acc + d) s'
    | None => None
    end
  | S _, EmptyString => None
  end.

(** [.fff[fff]], after the point: what follows the digits. *)
Definition read_fraction (s : string) : option string :=
  match read_digits 6 0 s with
  | Some (_, rest) => Some rest
  | None => snd <$> read_digits 3 0 s
  end.

(** [HH[:MM[:SS[.fff[fff]]]]]: hour, minute, second and what follows. *)
Definition read_time (s : string) : option (Z * Z * Z * string) :=
  match read_digits 2 0 s with
  | Some (h, String ":" s1) =>
    match read_digits 2 0 s1 with
    | Some (m, String ":" s2) =>
      match read_digits 2 0 s2 with
      | Some (sec, String "." s3) =>
        rest ← read_fraction s3; Some (h, m, sec, rest)
      | Some (sec, rest) => Some (h, m, sec, rest)
      | None => None
      end
    | Some (m, rest) => Some (h, m, 0, rest)
    | None => None
    end
  | Some (h, rest) => Some (h, 0, 0, rest)
  | None => None
  end.

(** [HH:MM[:SS[.ffffff]]], after the sign: the whole seconds of the
    offset. *)
Definition read_offset (s : string) : option Z :=
  match read_digits 2 0 s with
  | Some (h, String ":" s1) =>
    match read_digits 2 0 s1 with
    | Some (m, EmptyString) => Some (h * 3600 + m * 60)
    | Some (m, String ":" s2) =>
      match read_digits 2 0 s2 with
      | Some (sec, EmptyString) => Some (h * 3600 + m * 60 + sec)
      | Some (sec, String "." s3) =>
        match read_digits 6 0 s3 with
        | Some (_, EmptyString) => Some (h * 3600 + m * 60 + sec)
        | _ => None
        end
      | _ => None
      end
    | _ => None
    end
  | _ => None
  end.

Definition read_date (s : string) : result datetime.t :=
  let invalid := Raise (ValueError "Invalid isoformat string") in
  match read_digits 4 0 s with
  | Some (y, String "-" s1) =>
    match read_digits 2 0 s1 with
    | Some (m, String "-" s2) =>
      match read_digits 2 0 s2 with
      | Some (d, rest) =>
        if negb (datetime._check_date_fields y m d)
        then Raise (ValueError "date out of range")
        else
          match rest with
          | EmptyString => Ok (datetime.mk y m d 0 0 0)
          | String _ tstr =>
            match read_time tstr with
            | Some (h, mi, sec, tz) =>
              if negb ((h <=? 23) && (mi <=? 59) && (sec <=? 59))
              then Raise (ValueError "time out of range")
              else
                match tz with
                | EmptyString => Ok (datetime.mk y m d h mi sec)
                | String sign tzstr =>
                  if Ascii.eqb sign "+" || Ascii.eqb sign "-" then
                    match read_offset tzstr with
                    | Some offset =>
                      if offset <? 86400 then Ok (datetime.mk y m d h mi sec)
                      else Raise (ValueError "offset out of range")
                    | None => invalid
                    end
                  else invalid
                end
            | None => invalid
            end
          end
      | None => invalid
      end
    | _ => invalid
    end
  | _ => invalid
  end.

(** The events of one week of daily bars, Monday to Friday, with one
    fill delivered after [k] of the three midweek bars. *)
Definition week_events (mon tue wed thu fri : PriceBarEvent) (fill : FillEvent)
    (k : nat) : list Event :=
  let midweek := [OnBar tue; OnBar wed; OnBar thu] in
  OnBar mon :: firstn k midweek ++ OnFill fill :: skipn k midweek ++ [OnBar fri].

(** ** Sample data

    A few bars of one instrument, for evaluating the definitions. *)

Definition sample_bar (timestamp : string) (close : Q) : PriceBarEvent :=
  mkBar "AAPL" timestamp close close close close 1000.

Definition sample_bars : list PriceBarEvent :=
  [sample_bar "2024-11-04T00:00:00Z" 10; sample_bar "2024-11-05T00:00:00Z" 12;
   sample_bar "2024-11-06T00:00:00Z" 11; sample_bar "2024-11-07T00:00:00Z" 15].

Definition sample_week : list PriceBarEvent :=
  sample_bars ++ [sample_bar "2024-11-08T00:00:00Z" 14].

Definition sample_fill (side : string) (quantity : Q) : FillEvent :=
  mkFill "AAPL" side quantity 10 "2024-11-04T00:00:00Z".

(** Two bars on the last Monday of 2024, the Friday of that week and
    the Monday after, with the fills of the signals in between. *)
Definition turn_of_year_run : list Event :=
  [OnBar (sample_bar "2024-12-30T09:30:00Z" 10);
   OnBar (sample_bar "2024-12-30T10:30:00Z" 11);
   OnFill (sample_fill "buy" 100);
   OnBar (sample_bar "2025-01-03T09:30:00Z" 12);
   OnFill (sample_fill "sell" 100);
   OnBar (sample_bar "2025-01-06T09:30:00Z" 13)].

(** The date a bar's timestamp reads as. *)
Definition date_of_bar (bar : PriceBarEvent) : datetime.t :=
  match read_date (replace_Z (timestamp bar)) with
  | Ok d => d
  | Raise _ => datetime.mk 1 1 1 0 0 0
  end.

(** ** Scenario B

    The trend follower with a fast period of 2 and a slow period of 3,
    fed seven closes. *)

Definition scenario_B_config : SMACrossover.SMAConfig :=
  SMACrossover.mkConfig "sma_crossover" "SMA Crossover" [] 2 3 1 true.

Definition scenario_B_closes : list Q := [10; 10; 10; 10; 9; 11; 11]%Q.

Definition scenario_B_bars : list PriceBarEvent :=
  imap (fun i c => sample_bar ("t" +:+ pretty i) c) scenario_B_closes.

Definition scenario_B_outputs (bars : list PriceBarEvent)
    : list (list SignalIntention) :=
  outputs SMACrossover.on_bar SMACrossover.on_position_filled (map OnBar bars) []
    (SMACrossover.__init__ scenario_B_config, empty_context).

(** The scenario as the design words it: there is a bar, among the
    seven, at which the 2-bar mean of the earlier closes first exceeds
    their 3-bar mean; an open-long is emitted there and nothing is
    emitted at any other bar. *)
Definition scenario_B_as_stated : Prop :=
  exists t : nat,
    (t < 7)%nat /\
    fast_exceeds_slow 2 3 scenario_B_closes t /\
    (forall u, (u < t)%nat -> ~ fast_exceeds_slow 2 3 scenario_B_closes u) /\
    scenario_B_outputs scenario_B_bars !! t = Some [OPEN_LONG] /\
    forall u, (u < 7)%nat -> u <> t -> scenario_B_outputs scenario_B_bars !! u = Some [].

(** A steadily rising series, on which the fast mean stays above the
    slow one from the start. *)
Definition rising_bars : list PriceBarEvent :=
  imap (fun i c => sample_bar ("t" +:+ pretty i) c) [1; 2; 3; 4; 5; 6]%Q.

(** The sample bars with [Decimal] prices, as the CSV adapter delivers
    them. *)
Definition decimal_bar (bar : PriceBarEvent) : Bar pynum :=
  mkBar (symbol bar) (timestamp bar) (PyDecimal (open bar)) (PyDecimal (high bar))
        (PyDecimal (low bar)) (PyDecimal (close bar)) (volume bar).

Definition decimal_bars : list (Bar pynum) := map decimal_bar sample_bars.

(** ** Two statements of the design, as it words them *)

(** Batch and incremental mode agree on every list of bars: the batch
    result is, element by element, the sequence of values the updates
    return. *)
Definition batch_equals_incremental_as_stated : Prop :=
  forall (N : Z) (k : pynum) (bars : list (Bar pynum)) self,
    MyCustomIndicator.__init__ N k = Ok self ->
    exists values,
      fst (MyCustomIndicator.calculate bars self) = Ok values /\
      fst (feed MyCustomIndicator.update bars self) = map Ok values.



(** * Properties *)

(** ** Slices *)

Section SliceFacts.
Context {A : Type}.
Implicit Types l : list A.

Lemma len_app l k : len (l ++ k) = len l + len k.
Proof. unfold len. rewrite length_app. lia. Qed.

Lemma slice_range l (a b : Z) :
  0 <= a -> a <= b -> b <= len l ->
  slice l (Some a) (Some b) =
  firstn (Z.to_nat (b - a)) (skipn (Z.to_nat a) l).
Proof.
  intros Ha Hab Hb. unfold slice, norm_index.
  destruct (Z.ltb_spec a 0), (Z.ltb_spec b 0); try lia.
  rewrite !Z.min_l by lia. reflexivity.
Qed.

(** [l[-n:]] keeps the last [n] elements when there are that many. *)
Lemma slice_last l (n : Z) :
  1 <= n -> n <= len l ->
  slice l (Some (- n)) None = skipn (length l - Z.to_nat n) l.
Proof.
  intros Hn Hl. unfold slice, norm_index.
  destruct (Z.ltb_spec (- n) 0); try lia.
  rewrite Z.max_r by lia. unfold len in *.
  replace (Z.to_nat (- n + Z.of_nat (length l))) with (length l - Z.to_nat n)%nat by lia.
  apply firstn_all2. rewrite length_skipn. lia.
Qed.

(** [l[:-k]] drops the last [k] elements. *)
Lemma slice_drop_last l (k : Z) :
  1 <= k ->
  slice l None (Some (- k)) = firstn (length l - Z.to_nat k) l.
Proof.
  intros Hk. unfold slice, norm_index.
  destruct (Z.ltb_spec (- k) 0); try lia.
  simpl. rewrite Z.sub_0_r. f_equal. unfold len. lia.
Qed.
End SliceFacts.

Section WindowFacts.
Context {val : Type}.
Implicit Types prices : list val.

Lemma trailing_window_length N prices i :
  1 <= N -> N - 1 <= Z.of_nat i -> (i < length prices)%nat ->
  len (trailing_window N prices i) = N.
Proof.
  intros HN Hi Hlt. unfold trailing_window, len.
  rewrite length_firstn, length_skipn. lia.
Qed.

Lemma trailing_window_app N prices more i :
  N - 1 <= Z.of_nat i -> (i < length prices)%nat ->
  trailing_window N (prices ++ more) i = trailing_window N prices i.
Proof.
  intros Hi Hlt. unfold trailing_window.
  rewrite skipn_app, firstn_app, length_skipn.
  replace (Z.to_nat N - (length prices - (i + 1 - Z.to_nat N)))%nat with 0%nat by lia.
  simpl. apply app_nil_r.
Qed.

(** The window [calculate] cuts at index [i]. *)
Lemma batch_window N prices i :
  1 <= N -> N - 1 <= Z.of_nat i -> (i < length prices)%nat ->
  slice prices (Some (Z.of_nat i - N + 1)) (Some (Z.of_nat i + 1)) =
  trailing_window N prices i.
Proof.
  intros HN Hi Hlt. rewrite slice_range by (unfold len; lia).
  unfold trailing_window. f_equal; [lia | f_equal; lia].
Qed.

(** The window [update] cuts once the new price is stored. *)
Lemma stream_window N prices :
  1 <= N -> N <= len prices ->
  slice prices (Some (- N)) None = trailing_window N prices (length prices - 1).
Proof.
  intros HN Hl. rewrite slice_last by assumption. unfold trailing_window, len in *.
  replace (length prices - 1 + 1 - Z.to_nat N)%nat with (length prices - Z.to_nat N)%nat by lia.
  symmetry. apply firstn_all2. rewrite length_skipn. lia.
Qed.
End WindowFacts.

(** ** The indicators *)

Ltac unfold_monad :=
  repeat progress
    unfold mbind, mret, M_bind, M_ret, result_bind, result_ret,
           bind, ret, raise, get, put, lift,
           this, context, assign, emit_signal, track_indicators in *.

Lemma truediv_ok {num : Type} `{Numeric num} (x : num) (n : Z) :
  n <> 0 -> truediv x n = Ok (div x (of_int n)).
Proof. intros Hn. unfold truediv. destruct (Z.eqb_spec n 0); [lia | reflexivity]. Qed.

Lemma range_len {A} (l : list A) : range (len l) = map Z.of_nat (seq 0 (length l)).
Proof. unfold range, len. rewrite Nat2Z.id. reflexivity. Qed.

Lemma collect_app {A} (xs ys : list (result A)) :
  collect (xs ++ ys) =
  (vs ← collect xs; ws ← collect ys; Ok (vs ++ ws)).
Proof.
  induction xs as [|[a|e] xs IH]; cbn.
  - destruct (collect ys); reflexivity.
  - rewrite IH. unfold_monad. destruct (collect xs); [|reflexivity].
    destruct (collect ys); reflexivity.
  - reflexivity.
Qed.

(** A list of outcomes collects to values exactly when it is these
    values, each returned. *)
Lemma collect_ok {A} (xs : list (result A)) (vs : list A) :
  collect xs = Ok vs <-> xs = map Ok vs.
Proof.
  revert vs. induction xs as [|[a|e] xs IH]; intros vs; cbn.
  - split; [intros [= <-]; reflexivity | destruct vs; [reflexivity | discriminate]].
  - unfold_monad. split.
    + destruct (collect xs) as [ws|] eqn:Hc; [|discriminate].
      intros [= <-]. cbn. f_equal. apply IH. reflexivity.
    + destruct vs as [|v vs]; [discriminate|]. cbn. intros [= -> Hxs].
      apply IH in Hxs. rewrite Hxs. reflexivity.
  - split; [discriminate | destruct vs; discriminate].
Qed.

Module SingleValue.
Section Facts.
Import MyCustomIndicator.
Context {val : Type} `{Num.Ops val}.
Implicit Types (self : t val) (prices : list val).

Local Abbreviation expected := expected_value.

Lemma calculate_step_ok self prices i acc :
  1 <= period self -> (i < length prices)%nat ->
  calculate_step prices (Z.of_nat i) acc self =
  (v ← expected self prices i; Ok (acc ++ [v]), self).
Proof.
  intros HN Hi. unfold calculate_step, expected, spec_rolling, spec_scaled_mean.
  unfold_monad.
  destruct (Z.ltb_spec (Z.of_nat i) (period self - 1)) as [Hw|Hw]; [reflexivity|].
  rewrite batch_window by lia.
  destruct (Num.sum _); [|reflexivity].
  destruct (Num.truediv _ _); [|reflexivity].
  destruct (Num.mul _ _); reflexivity.
Qed.

Lemma calculate_loop self prices k : forall a acc,
  1 <= period self -> (a + k <= length prices)%nat ->
  for_each (map Z.of_nat (seq a k)) (calculate_step prices) acc self =
  (vs ← collect (map (expected self prices) (seq a k)); Ok (acc ++ vs), self).
Proof.
  induction k as [|k IH]; intros a acc HN Hk; cbn [seq map for_each collect].
  - unfold_monad. rewrite app_nil_r. reflexivity.
  - unfold bind at 1. rewrite calculate_step_ok by lia.
    destruct (expected self prices a) as [v|e]; unfold_monad; [|reflexivity].
    fold (@bind (t val)). rewrite IH by lia. unfold_monad.
    destruct (collect _); [|reflexivity].
    rewrite <- app_assoc. reflexivity.
Qed.

Lemma calculate_ok self bars :
  1 <= period self ->
  calculate bars self =
  (collect (map (expected self (map close bars)) (seq 0 (length bars))), self).
Proof.
  intros HN. unfold calculate. destruct bars as [|b bars]; [reflexivity|].
  rewrite range_len, calculate_loop by (rewrite ?length_map; simpl; lia).
  rewrite length_map. unfold_monad. destruct (collect _); reflexivity.
Qed.

Lemma update_ok self bar :
  1 <= period self ->
  let prices := _prices self ++ [close bar] in
  let r := expected self prices (length (_prices self)) in
  update bar self =
  (r, mk (period self) (multiplier self) prices
         match r with Ok v => v | Raise _ => _current_value self end).
Proof.
  intros HN prices r. subst r.
  unfold update, expected, spec_rolling, spec_scaled_mean. unfold_monad.
  cbn [_prices period multiplier set_prices set_current_value _current_value].
  fold prices.
  assert (Hlen : len prices = Z.of_nat (length (_prices self)) + 1).
  { unfold prices. rewrite len_app. reflexivity. }
  destruct (Z.ltb_spec (len prices) (period self)) as [Hw|Hw];
    destruct (Z.ltb_spec (Z.of_nat (length (_prices self))) (period self - 1));
    try lia; [reflexivity|].
  rewrite stream_window by lia.
  replace (length prices - 1)%nat with (length (_prices self))
    by (unfold len in Hlen; lia).
  destruct (Num.sum _); [|reflexivity].
  destruct (Num.truediv _ _); [|reflexivity].
  destruct (Num.mul _ _); reflexivity.
Qed.

Lemma expected_app self prices more i :
  (i < length prices)%nat ->
  expected self (prices ++ more) i = expected self prices i.
Proof.
  intros Hi. unfold expected, spec_rolling.
  destruct (Z.ltb_spec (Z.of_nat i) (period self - 1)); [reflexivity|].
  rewrite trailing_window_app by lia. reflexivity.
Qed.

(** Streaming from any state whose period is valid. *)
Lemma feed_ok bars : forall self,
  1 <= period self ->
  fst (feed update bars self) =
  map (fun i => expected self (_prices self ++ map close bars) i)
      (seq (length (_prices self)) (length bars)).
Proof.
  induction bars as [|b bars IH]; intros self HN; [reflexivity|].
  simpl. rewrite update_ok by assumption.
  set (self' := mk _ _ _ _).
  specialize (IH self' HN).
  destruct (feed update bars self') as [rs s2]. simpl in *. subst rs.
  change (expected_value self') with (expected_value self).
  rewrite <- app_assoc. simpl.
  f_equal.
  - symmetry.
    replace (_prices self ++ close b :: map close bars)
      with ((_prices self ++ [close b]) ++ map close bars)
      by (rewrite <- app_assoc; reflexivity).
    apply expected_app. rewrite length_app. simpl. lia.
  - rewrite length_app. simpl. rewrite Nat.add_1_r. reflexivity.
Qed.
End Facts.
End SingleValue.

Module MultiValue.
Section Facts.
Import MyCustomMultiValueIndicator.
Context {val : Type} `{Num.Ops val}.
Implicit Types (self : t val) (prices : list val).

Lemma bands_calculate_step_ok self prices i acc :
  1 <= period self -> (i < length prices)%nat ->
  calculate_step prices (Z.of_nat i) acc self =
  (v ← expected_bands self prices i; Ok (acc ++ [v]), self).
Proof.
  intros HN Hi. unfold calculate_step, expected_bands, spec_rolling, spec_bands.
  unfold_monad.
  destruct (Z.ltb_spec (Z.of_nat i) (period self - 1)) as [Hw|Hw]; [reflexivity|].
  rewrite batch_window by lia.
  destruct (Num.sum _); [|reflexivity].
  destruct (Num.truediv _ _); [|reflexivity].
  destruct (Num.sum_of _ _); [|reflexivity].
  destruct (Num.truediv _ _); [|reflexivity].
  destruct (Num.pow_half _); [|reflexivity].
  destruct (Num.mul _ _); [|reflexivity].
  destruct (Num.add _ _); [|reflexivity].
  destruct (Num.sub _ _); reflexivity.
Qed.

Lemma bands_calculate_loop self prices k : forall a acc,
  1 <= period self -> (a + k <= length prices)%nat ->
  for_each (map Z.of_nat (seq a k)) (calculate_step prices) acc self =
  (vs ← collect (map (expected_bands self prices) (seq a k)); Ok (acc ++ vs), self).
Proof.
  induction k as [|k IH]; intros a acc HN Hk; cbn [seq map for_each collect].
  - unfold_monad. rewrite app_nil_r. reflexivity.
  - unfold bind at 1. rewrite bands_calculate_step_ok by lia.
    destruct (expected_bands self prices a) as [v|e]; unfold_monad; [|reflexivity].
    fold (@bind (t val)). rewrite IH by lia. unfold_monad.
    destruct (collect _); [|reflexivity].
    rewrite <- app_assoc. reflexivity.
Qed.

Lemma bands_calculate_ok self bars :
  1 <= period self ->
  calculate bars self =
  (collect (map (expected_bands self (map close bars)) (seq 0 (length bars))), self).
Proof.
  intros HN. unfold calculate. destruct bars as [|b bars]; [reflexivity|].
  rewrite range_len, bands_calculate_loop by (rewrite ?length_map; simpl; lia).
  rewrite length_map. unfold_monad. destruct (collect _); reflexivity.
Qed.

Lemma bands_update_ok self bar :
  1 <= period self ->
  let prices := _prices self ++ [close bar] in
  let r := expected_bands self prices (length (_prices self)) in
  update bar self =
  (r, mk (period self) (num_std self) prices
         match r with Ok v => v | Raise _ => _current_value self end).
Proof.
  intros HN prices r. subst r.
  unfold update, expected_bands, spec_rolling, spec_bands. unfold_monad.
  cbn [_prices period num_std set_prices set_current_value _current_value].
  fold prices.
  assert (Hlen : len prices = Z.of_nat (length (_prices self)) + 1).
  { unfold prices. rewrite len_app. reflexivity. }
  destruct (Z.ltb_spec (len prices) (period self)) as [Hw|Hw];
    destruct (Z.ltb_spec (Z.of_nat (length (_prices self))) (period self - 1));
    try lia; [reflexivity|].
  rewrite stream_window by lia.
  replace (length prices - 1)%nat with (length (_prices self))
    by (unfold len in Hlen; lia).
  destruct (Num.sum _); [|reflexivity].
  destruct (Num.truediv _ _); [|reflexivity].
  destruct (Num.sum_of _ _); [|reflexivity].
  destruct (Num.truediv _ _); [|reflexivity].
  destruct (Num.pow_half _); [|reflexivity].
  destruct (Num.mul _ _); [|reflexivity].
  destruct (Num.add _ _); [|reflexivity].
  destruct (Num.sub _ _); reflexivity.
Qed.

Lemma expected_bands_app self prices more i :
  (i < length prices)%nat ->
  expected_bands self (prices ++ more) i = expected_bands self prices i.
Proof.
  intros Hi. unfold expected_bands, spec_rolling.
  destruct (Z.ltb_spec (Z.of_nat i) (period self - 1)); [reflexivity|].
  rewrite trailing_window_app by lia. reflexivity.
Qed.

Lemma bands_feed_ok bars : forall self,
  1 <= period self ->
  fst (feed update bars self) =
  map (fun i => expected_bands self (_prices self ++ map close bars) i)
      (seq (length (_prices self)) (length bars)).
Proof.
  induction bars as [|b bars IH]; intros self HN; [reflexivity|].
  simpl. rewrite bands_update_ok by assumption.
  set (self' := mk _ _ _ _).
  specialize (IH self' HN).
  destruct (feed update bars self') as [rs s2]. simpl in *. subst rs.
  change (expected_bands self') with (expected_bands self).
  rewrite <- app_assoc. simpl.
  f_equal.
  - symmetry.
    replace (_prices self ++ close b :: map close bars)
      with ((_prices self ++ [close b]) ++ map close bars)
      by (rewrite <- app_assoc; reflexivity).
    apply expected_bands_app. rewrite length_app. simpl. lia.
  - rewrite length_app. simpl. rewrite Nat.add_1_r. reflexivity.
Qed.
End Facts.
End MultiValue.

(** A method that only reads the object. *)
Section ReadOnly.
Context {S : Type}.

Lemma for_each_readonly {A Acc} (body : A -> Acc -> M S Acc) (xs : list A) :
  (forall x acc s, snd (body x acc s) = s) ->
  forall acc s, snd (for_each xs body acc s) = s.
Proof.
  intros Hbody. induction xs as [|x xs IH]; intros acc s; simpl; [reflexivity|].
  unfold bind. specialize (Hbody x acc s).
  destruct (body x acc s) as [[a|e] s']; simpl in Hbody; subst s'.
  - apply IH.
  - reflexivity.
Qed.
End ReadOnly.

Lemma single_calculate_step_readonly {val} `{Num.Ops val}
    (prices : list val) i acc (self : MyCustomIndicator.t val) :
  snd (MyCustomIndicator.calculate_step prices i acc self) = self.
Proof.
  unfold MyCustomIndicator.calculate_step. unfold_monad.
  destruct (i <? _); [reflexivity|].
  destruct (Num.sum _); [|reflexivity].
  destruct (Num.truediv _ _); [|reflexivity].
  destruct (Num.mul _ _); reflexivity.
Qed.

Lemma bands_calculate_step_readonly {val} `{Num.Ops val}
    (prices : list val) i acc (self : MyCustomMultiValueIndicator.t val) :
  snd (MyCustomMultiValueIndicator.calculate_step prices i acc self) = self.
Proof.
  unfold MyCustomMultiValueIndicator.calculate_step. unfold_monad.
  destruct (i <? _); [reflexivity|].
  destruct (Num.sum _); [|reflexivity].
  destruct (Num.truediv _ _); [|reflexivity].
  destruct (Num.sum_of _ _); [|reflexivity].
  destruct (Num.truediv _ _); [|reflexivity].
  destruct (Num.pow_half _); [|reflexivity].
  destruct (Num.mul _ _); [|reflexivity].
  destruct (Num.add _ _); [|reflexivity].
  destruct (Num.sub _ _); reflexivity.
Qed.

Lemma single_calculate_readonly {val} `{Num.Ops val}
    (bars : list (Bar val)) (self : MyCustomIndicator.t val) :
  snd (MyCustomIndicator.calculate bars self) = self.
Proof.
  unfold MyCustomIndicator.calculate. destruct bars; [reflexivity|].
  apply for_each_readonly. intros. apply single_calculate_step_readonly.
Qed.

Lemma bands_calculate_readonly {val} `{Num.Ops val}
    (bars : list (Bar val)) (self : MyCustomMultiValueIndicator.t val) :
  snd (MyCustomMultiValueIndicator.calculate bars self) = self.
Proof.
  unfold MyCustomMultiValueIndicator.calculate. destruct bars; [reflexivity|].
  apply for_each_readonly. intros. apply bands_calculate_step_readonly.
Qed.

Lemma single_init_cases {val} `{Num.Ops val} (N : Z) (k : val) :
  MyCustomIndicator.__init__ N k =
  if N <? 1 then
    Raise (ValueError ("period must be >= 1, got " +:+ pretty N))
  else
    match Num.le k (Num.of_int 0) with
    | Ok true => Raise (ValueError ("multiplier must be > 0, got " +:+ Num.str k))
    | Ok false => Ok (MyCustomIndicator.mk N k [] None)
    | Raise e => Raise e
    end.
Proof.
  unfold MyCustomIndicator.__init__. unfold_monad.
  destruct (N <? 1); [reflexivity|].
  destruct (Num.le _ _) as [[|]|]; reflexivity.
Qed.

Lemma bands_init_cases {val} `{Num.Ops val} (N : Z) (k : val) :
  MyCustomMultiValueIndicator.__init__ N k =
  if N <? 2 then
    Raise (ValueError ("period must be >= 2, got " +:+ pretty N))
  else
    match Num.le k (Num.of_int 0) with
    | Ok true => Raise (ValueError ("num_std must be > 0, got " +:+ Num.str k))
    | Ok false => Ok (MyCustomMultiValueIndicator.mk N k [] None)
    | Raise e => Raise e
    end.
Proof.
  unfold MyCustomMultiValueIndicator.__init__. unfold_monad.
  destruct (N <? 2); [reflexivity|].
  destruct (Num.le _ _) as [[|]|]; reflexivity.
Qed.

Lemma single_init_inv {val} `{Num.Ops val} (N : Z) (k : val) self :
  MyCustomIndicator.__init__ N k = Ok self ->
  1 <= N /\ Num.le k (Num.of_int 0) = Ok false /\
  self = MyCustomIndicator.mk N k [] None.
Proof.
  rewrite single_init_cases.
  destruct (Z.ltb_spec N 1); [discriminate|].
  destruct (Num.le k (Num.of_int 0)) as [[|]|]; try discriminate.
  intros [= <-]. auto.
Qed.

Lemma bands_init_inv {val} `{Num.Ops val} (N : Z) (k : val) self :
  MyCustomMultiValueIndicator.__init__ N k = Ok self ->
  2 <= N /\ Num.le k (Num.of_int 0) = Ok false /\
  self = MyCustomMultiValueIndicator.mk N k [] None.
Proof.
  rewrite bands_init_cases.
  destruct (Z.ltb_spec N 2); [discriminate|].
  destruct (Num.le k (Num.of_int 0)) as [[|]|]; try discriminate.
  intros [= <-]. auto.
Qed.

Lemma lookup_map_seq {A} (f : nat -> A) (n i : nat) :
  (i < n)%nat -> map f (seq 0 n) !! i = Some (f i).
Proof.
  intros Hi. rewrite list_lookup_fmap, lookup_seq_lt by assumption. reflexivity.
Qed.

(** C1, as stated, fails: with [Decimal] closes and the default float
    factor, the product of the mean and the factor raises [TypeError],
    so [calculate] returns no list, while the first [update()] has
    returned [None] before the second raises. *)
Lemma batch_raises_where_update_returned :
  ~ batch_equals_incremental_as_stated.
Proof.
  intros Hclaim.
  destruct (Hclaim 2 (PyFloat 1) decimal_bars
              (MyCustomIndicator.mk 2 (PyFloat 1) [] None) eq_refl)
    as (values & Hcalc & _).
  vm_compute in Hcalc. discriminate Hcalc.
Qed.

(** C1, amended. For every period [N >= 1] ([N >= 2] for the banded
    indicator) and every list of bars, the [i]-th call of [update()] on
    a freshly constructed indicator returns [None] at the indices
    [i < N - 1] and, at every index [i >= N - 1], returns the value
    computed from the [N] closing prices that end at index [i], or
    raises the exception that this computation raises.
    [calculate(bars)] returns the list of these values, element by
    element what the [update()] calls return, when none of the
    computations raises; otherwise it raises the first of their
    exceptions and returns no list. *)
Theorem batch_agrees_with_incremental {val} `{Num.Ops val}
    (N : Z) (k : val) (bars : list (Bar val)) :
  (forall self, MyCustomIndicator.__init__ N k = Ok self ->
     let entry := spec_rolling (spec_scaled_mean k) N (map close bars) in
     let entries := map entry (seq 0 (length bars)) in
     fst (feed MyCustomIndicator.update bars self) = entries /\
     fst (MyCustomIndicator.calculate bars self) = collect entries /\
     (forall values,
        entries = map Ok values ->
        fst (MyCustomIndicator.calculate bars self) = Ok values /\
        fst (feed MyCustomIndicator.update bars self) = map Ok values /\
        length values = length bars) /\
     forall i, (i < length bars)%nat ->
       let window := trailing_window N (map close bars) i in
       (Z.of_nat i < N - 1 -> entry i = Ok None) /\
       (N - 1 <= Z.of_nat i ->
          len window = N /\
          entry i = (v ← spec_scaled_mean k window; Ok (Some v)))) /\
  (forall self, MyCustomMultiValueIndicator.__init__ N k = Ok self ->
     let entry := spec_rolling (spec_bands k) N (map close bars) in
     let entries := map entry (seq 0 (length bars)) in
     fst (feed MyCustomMultiValueIndicator.update bars self) = entries /\
     fst (MyCustomMultiValueIndicator.calculate bars self) = collect entries /\
     (forall values,
        entries = map Ok values ->
        fst (MyCustomMultiValueIndicator.calculate bars self) = Ok values /\
        fst (feed MyCustomMultiValueIndicator.update bars self) = map Ok values /\
        length values = length bars) /\
     forall i, (i < length bars)%nat ->
       let window := trailing_window N (map close bars) i in
       (Z.of_nat i < N - 1 -> entry i = Ok None) /\
       (N - 1 <= Z.of_nat i ->
          len window = N /\
          entry i = (v ← spec_bands k window; Ok (Some v)))).
Proof.
  split; intros self Hinit entry entries.
  - apply single_init_inv in Hinit as (HN & _ & ->).
    set (self := MyCustomIndicator.mk N k [] None).
    assert (Hfeed : fst (feed MyCustomIndicator.update bars self) = entries).
    { rewrite SingleValue.feed_ok by exact HN. reflexivity. }
    assert (Hcalc : fst (MyCustomIndicator.calculate bars self) = collect entries).
    { rewrite SingleValue.calculate_ok by exact HN. reflexivity. }
    split; [exact Hfeed|]. split; [exact Hcalc|]. split.
    + intros values Hvalues. rewrite Hcalc, Hfeed.
      split; [apply collect_ok; exact Hvalues|]. split; [exact Hvalues|].
      apply (f_equal (@length _)) in Hvalues.
      unfold entries in Hvalues. rewrite !length_map, length_seq in Hvalues. lia.
    + intros i Hi window. subst entry. unfold spec_rolling. fold window.
      destruct (Z.ltb_spec (Z.of_nat i) (N - 1)); split; intros; try lia; auto.
      split; [|reflexivity].
      apply trailing_window_length; rewrite ?length_map; lia.
  - apply bands_init_inv in Hinit as (HN & _ & ->).
    set (self := MyCustomMultiValueIndicator.mk N k [] None).
    assert (Hfeed : fst (feed MyCustomMultiValueIndicator.update bars self) = entries).
    { rewrite MultiValue.bands_feed_ok by (simpl; lia). reflexivity. }
    assert (Hcalc : fst (MyCustomMultiValueIndicator.calculate bars self)
                    = collect entries).
    { rewrite MultiValue.bands_calculate_ok by (simpl; lia). reflexivity. }
    split; [exact Hfeed|]. split; [exact Hcalc|]. split.
    + intros values Hvalues. rewrite Hcalc, Hfeed.
      split; [apply collect_ok; exact Hvalues|]. split; [exact Hvalues|].
      apply (f_equal (@length _)) in Hvalues.
      unfold entries in Hvalues. rewrite !length_map, length_seq in Hvalues. lia.
    + intros i Hi window. subst entry. unfold spec_rolling. fold window.
      destruct (Z.ltb_spec (Z.of_nat i) (N - 1)); split; intros; try lia; auto.
      split; [|reflexivity].
      apply trailing_window_length; rewrite ?length_map; lia.
Qed.

Lemma batch_agrees_with_incremental_witness :
  MyCustomIndicator.__init__ 2 (PyDecimal 1) =
    Ok (MyCustomIndicator.mk 2 (PyDecimal 1) [] None) /\
  fst (feed MyCustomIndicator.update decimal_bars
         (MyCustomIndicator.mk 2 (PyDecimal 1) [] None)) =
    map (spec_rolling (spec_scaled_mean (PyDecimal 1)) 2 (map close decimal_bars))
        (seq 0 (length decimal_bars)) /\
  fst (MyCustomIndicator.calculate decimal_bars
         (MyCustomIndicator.mk 2 (PyDecimal 1) [] None)) =
    collect (map (spec_rolling (spec_scaled_mean (PyDecimal 1)) 2
                    (map close decimal_bars))
                 (seq 0 (length decimal_bars))).
Proof.
  assert (Hinit : MyCustomIndicator.__init__ 2 (PyDecimal 1) =
                  Ok (MyCustomIndicator.mk 2 (PyDecimal 1) [] None))
    by (vm_compute; reflexivity).
  split; [exact Hinit|].
  destruct (proj1 (batch_agrees_with_incremental 2 (PyDecimal 1) decimal_bars)
              (MyCustomIndicator.mk 2 (PyDecimal 1) [] None) Hinit)
    as (Hfeed & Hcalc & _).
  split; [exact Hfeed | exact Hcalc].
Defined.

(** C6. [reset()] empties the stored prices and the cached value and
    keeps the parameters (period and multiplier, or period and num_std);
    the object it leaves is the one the constructor builds from these
    parameters, so feeding any bars after [reset()] gives, call by call,
    what a fresh instance of the same configuration gives. *)
Theorem reset_restarts {val} `{Num.Ops val} (bars : list (Bar val)) :
  (forall self fresh,
     MyCustomIndicator.__init__ (MyCustomIndicator.period self)
       (MyCustomIndicator.multiplier self) = Ok fresh ->
     let after := snd (MyCustomIndicator.reset self) in
     fst (MyCustomIndicator.reset self) = Ok tt /\
     MyCustomIndicator._prices after = [] /\
     MyCustomIndicator._current_value after = None /\
     MyCustomIndicator.period after = MyCustomIndicator.period self /\
     MyCustomIndicator.multiplier after = MyCustomIndicator.multiplier self /\
     feed MyCustomIndicator.update bars after =
     feed MyCustomIndicator.update bars fresh) /\
  (forall self fresh,
     MyCustomMultiValueIndicator.__init__ (MyCustomMultiValueIndicator.period self)
       (MyCustomMultiValueIndicator.num_std self) = Ok fresh ->
     let after := snd (MyCustomMultiValueIndicator.reset self) in
     fst (MyCustomMultiValueIndicator.reset self) = Ok tt /\
     MyCustomMultiValueIndicator._prices after = [] /\
     MyCustomMultiValueIndicator._current_value after = None /\
     MyCustomMultiValueIndicator.period after = MyCustomMultiValueIndicator.period self /\
     MyCustomMultiValueIndicator.num_std after = MyCustomMultiValueIndicator.num_std self /\
     feed MyCustomMultiValueIndicator.update bars after =
     feed MyCustomMultiValueIndicator.update bars fresh).
Proof.
  split; intros self fresh Hinit after.
  - apply single_init_inv in Hinit as (_ & _ & ->).
    repeat split; reflexivity.
  - apply bands_init_inv in Hinit as (_ & _ & ->).
    repeat split; reflexivity.
Qed.

Lemma reset_restarts_witness :
  let used := snd (feed MyCustomIndicator.update decimal_bars
                     (MyCustomIndicator.mk 2 (PyDecimal 1) [] None)) in
  let after := snd (MyCustomIndicator.reset used) in
  MyCustomIndicator._prices used = map close decimal_bars /\
  MyCustomIndicator._prices after = [] /\
  feed MyCustomIndicator.update decimal_bars after =
  feed MyCustomIndicator.update decimal_bars (MyCustomIndicator.mk 2 (PyDecimal 1) [] None).
Proof.
  intros used after. split; [reflexivity|].
  assert (Hinit : MyCustomIndicator.__init__ (MyCustomIndicator.period used)
                     (MyCustomIndicator.multiplier used)
                   = Ok (MyCustomIndicator.mk 2 (PyDecimal 1) [] None))
    by (vm_compute; reflexivity).
  destruct (proj1 (reset_restarts decimal_bars) used _ Hinit)
    as (_ & Hp & _ & _ & _ & Hfeed).
  split; [exact Hp | exact Hfeed].
Defined.




(** C10. [calculate(bars)] leaves the indicator as it found it: the
    stored prices, the cached value, and with them [value] and
    [is_ready], are the same after the call as before, and any later
    [update()] calls return what they would have returned without it. *)
Theorem calculate_leaves_state {val} `{Num.Ops val}
    (bars more : list (Bar val)) :
  (forall self : MyCustomIndicator.t val,
     let after := snd (MyCustomIndicator.calculate bars self) in
     after = self /\
     MyCustomIndicator._prices after = MyCustomIndicator._prices self /\
     MyCustomIndicator._current_value after = MyCustomIndicator._current_value self /\
     MyCustomIndicator.value after = MyCustomIndicator.value self /\
     MyCustomIndicator.is_ready after = MyCustomIndicator.is_ready self /\
     feed MyCustomIndicator.update more after =
     feed MyCustomIndicator.update more self) /\
  (forall self : MyCustomMultiValueIndicator.t val,
     let after := snd (MyCustomMultiValueIndicator.calculate bars self) in
     after = self /\
     MyCustomMultiValueIndicator._prices after = MyCustomMultiValueIndicator._prices self /\
     MyCustomMultiValueIndicator._current_value after =
       MyCustomMultiValueIndicator._current_value self /\
     MyCustomMultiValueIndicator.value after = MyCustomMultiValueIndicator.value self /\
     MyCustomMultiValueIndicator.is_ready after =
       MyCustomMultiValueIndicator.is_ready self /\
     feed MyCustomMultiValueIndicator.update more after =
     feed MyCustomMultiValueIndicator.update more self).
Proof.
  split; intros self after; subst after.
  - rewrite single_calculate_readonly. repeat split; reflexivity.
  - rewrite bands_calculate_readonly. repeat split; reflexivity.
Qed.

(** ** The crossover strategy *)

Lemma Q_leb_iff (x y : Q) : leb x y = true <-> (x <= y)%Q.
Proof. apply Qle_bool_iff. Qed.

Lemma Q_ltb_iff (x y : Q) : ltb x y = true <-> (x < y)%Q.
Proof.
  simpl. rewrite negb_true_iff. split.
  - intros Hb. apply Qnot_le_lt. intros Hle.
    apply Qle_bool_iff in Hle. congruence.
  - intros Hlt. destruct (Qle_bool y x) eqn:Hb; [|reflexivity].
    apply Qle_bool_iff in Hb. exfalso. exact (Qlt_not_le _ _ Hlt Hb).
Qed.

(** C3. The step is an upward cross exactly when the previous fast value
    was at or below the previous slow value and the current fast value
    is strictly above the current slow one, a downward cross exactly in
    the mirrored case, and nothing otherwise (the two never hold
    together); a tie at the previous step does not prevent either
    cross. *)
Theorem crossover_classification (prev_fast prev_slow fast slow : Q) :
  (SMACrossover.golden_cross prev_fast prev_slow fast slow = true <->
     (prev_fast <= prev_slow)%Q /\ (slow < fast)%Q) /\
  (SMACrossover.death_cross prev_fast prev_slow fast slow = true <->
     (prev_slow <= prev_fast)%Q /\ (fast < slow)%Q) /\
  ~ (SMACrossover.golden_cross prev_fast prev_slow fast slow = true /\
     SMACrossover.death_cross prev_fast prev_slow fast slow = true) /\
  ((prev_fast == prev_slow)%Q -> (slow < fast)%Q ->
     SMACrossover.golden_cross prev_fast prev_slow fast slow = true) /\
  ((prev_fast == prev_slow)%Q -> (fast < slow)%Q ->
     SMACrossover.death_cross prev_fast prev_slow fast slow = true).
Proof.
  unfold SMACrossover.golden_cross, SMACrossover.death_cross.
  rewrite !andb_true_iff, !Q_leb_iff, !Q_ltb_iff.
  split; [tauto|]. split; [tauto|]. split; [|split].
  - intros [[_ Hgt] [_ Hlt]]. exact (Qlt_irrefl _ (Qlt_trans _ _ _ Hgt Hlt)).
  - intros Heq Hgt. split; [rewrite Heq; apply Qle_refl | exact Hgt].
  - intros Heq Hlt. split; [rewrite Heq; apply Qle_refl | exact Hlt].
Qed.

Lemma crossover_classification_witness :
  SMACrossover.golden_cross 10 10 11 10 = true /\
  SMACrossover.death_cross 10 10 9 10 = true.
Proof.
  split.
  - apply (crossover_classification 10 10 11 10); reflexivity.
  - apply (crossover_classification 10 10 9 10); reflexivity.
Defined.

Lemma position_of_set (self : SMACrossover.t) symbol p :
  SMACrossover.position_of (SMACrossover.set_position symbol p self) symbol = p.
Proof.
  unfold SMACrossover.position_of, SMACrossover.set_position. simpl.
  rewrite lookup_insert_eq. reflexivity.
Qed.

Lemma position_of_set_other (self : SMACrossover.t) symbol other p :
  other <> symbol ->
  SMACrossover.position_of (SMACrossover.set_position symbol p self) other =
  SMACrossover.position_of self other.
Proof.
  intros Hne. unfold SMACrossover.position_of, SMACrossover.set_position. simpl.
  rewrite lookup_insert_ne by congruence. reflexivity.
Qed.

(** A fill returns, leaves the context alone, and touches the position
    of no other instrument. *)
Lemma fill_frame (self : SMACrossover.t) (ctx : Context) (fill : FillEvent) :
  exists self',
    SMACrossover.on_position_filled fill (self, ctx) = (Ok tt, (self', ctx)) /\
    forall other, other <> fill_symbol fill ->
      SMACrossover.position_of self' other = SMACrossover.position_of self other.
Proof.
  unfold SMACrossover.on_position_filled. unfold_monad. simpl.
  repeat case_match; eexists; (split; [reflexivity|]);
    intros other Hne; rewrite ?position_of_set_other by assumption; reflexivity.
Qed.

(** One fill, read through the table. *)
Lemma fill_follows_table (self : SMACrossover.t) (ctx : Context)
    (fill : FillEvent) (p : Position) :
  SMACrossover.position_of self (fill_symbol fill) = stored p ->
  SMACrossover.position_of
    (fst (snd (SMACrossover.on_position_filled fill (self, ctx)))) (fill_symbol fill) =
  stored (match side_of fill with Some s => spec_fill p s | None => p end).
Proof.
  intros Hp. unfold SMACrossover.on_position_filled, side_of. unfold_monad. simpl.
  rewrite Hp.
  destruct (String.eqb (side fill) "buy");
    [|destruct (String.eqb (side fill) "sell")];
    destruct p; simpl; rewrite ?position_of_set; first [reflexivity | assumption].
Qed.

Lemma on_bar_keeps_positions (bar : PriceBarEvent) (w : SMACrossover.t * Context) :
  fst (snd (SMACrossover.on_bar bar w)) = fst w.
Proof.
  destruct w as [self ctx]. unfold SMACrossover.on_bar. unfold_monad. simpl.
  repeat (case_match; simpl; try reflexivity).
Qed.

Lemma run_fills_positions (symbol : string) (fills : list FillEvent) :
  forall (self : SMACrossover.t) (ctx : Context) (p : Position),
  SMACrossover.position_of self symbol = stored p ->
  let r := run SMACrossover.on_bar SMACrossover.on_position_filled
               (map OnFill fills) [] (self, ctx) in
  fst r = Ok tt /\
  snd (snd r) = ctx /\
  SMACrossover.position_of (fst (snd r)) symbol =
  stored (spec_position symbol fills p).
Proof.
  induction fills as [|fill fills IH]; intros self ctx p Hp; simpl.
  - auto.
  - destruct (fill_frame self ctx fill) as (self' & Hrun & Hother).
    pose proof (fill_follows_table self ctx fill p) as Hsame.
    rewrite Hrun in *. simpl in Hsame.
    unfold spec_position. simpl.
    destruct (String.eqb_spec (fill_symbol fill) symbol) as [Heq|Hne].
    + subst symbol. apply (IH self' ctx _ (Hsame Hp)).
    + apply (IH self' ctx p). rewrite Hother by congruence. exact Hp.
Qed.

(** C4. Per instrument, starting Flat, the position changes only when a
    fill is delivered: processing a bar leaves it alone.  A buy fill
    while Short gives Flat, while Flat or Long gives Long; a sell fill
    while Long gives Flat, while Flat or Short gives Short; the quantity,
    price and time of the fill play no part.  After any finite sequence
    of fills the stored position is the one the table gives, so from
    Flat the fills Buy, Buy, Sell end Flat and the fills Sell, Buy end
    Flat. *)
Theorem positions_follow_fills (cfg : SMACrossover.SMAConfig) (symbol : string) :
  let after self ctx q pr ts s :=
    SMACrossover.position_of
      (fst (snd (SMACrossover.on_position_filled (fill_of symbol q pr ts s) (self, ctx))))
      symbol in
  let final fills :=
    run SMACrossover.on_bar SMACrossover.on_position_filled (map OnFill fills) []
        (SMACrossover.__init__ cfg, empty_context) in
  (forall bar w, fst (snd (SMACrossover.on_bar bar w)) = fst w) /\
  (forall self ctx q pr ts,
     (SMACrossover.position_of self symbol = stored Short ->
        after self ctx q pr ts Buy = stored Flat) /\
     (SMACrossover.position_of self symbol = stored Flat \/
      SMACrossover.position_of self symbol = stored Long ->
        after self ctx q pr ts Buy = stored Long) /\
     (SMACrossover.position_of self symbol = stored Long ->
        after self ctx q pr ts Sell = stored Flat) /\
     (SMACrossover.position_of self symbol = stored Flat \/
      SMACrossover.position_of self symbol = stored Short ->
        after self ctx q pr ts Sell = stored Short)) /\
  (forall fills : list FillEvent,
     fst (final fills) = Ok tt /\
     SMACrossover.position_of (fst (snd (final fills))) symbol =
     stored (spec_position symbol fills Flat)) /\
  (forall q1 q2 q3 pr1 pr2 pr3 ts1 ts2 ts3,
     SMACrossover.position_of
       (fst (snd (final [fill_of symbol q1 pr1 ts1 Buy; fill_of symbol q2 pr2 ts2 Buy;
                         fill_of symbol q3 pr3 ts3 Sell]))) symbol = stored Flat) /\
  (forall q1 q2 pr1 pr2 ts1 ts2,
     SMACrossover.position_of
       (fst (snd (final [fill_of symbol q1 pr1 ts1 Sell; fill_of symbol q2 pr2 ts2 Buy])))
       symbol = stored Flat).
Proof.
  intros after final.
  assert (Hstep : forall self ctx q pr ts p s,
            SMACrossover.position_of self symbol = stored p ->
            after self ctx q pr ts s = stored (spec_fill p s)).
  { intros self ctx q pr ts p s Hp. unfold after.
    pose proof (fill_follows_table self ctx (fill_of symbol q pr ts s) p Hp) as Hf.
    simpl in Hf. rewrite Hf. destruct s; reflexivity. }
  assert (Hrun : forall fills : list FillEvent,
            fst (final fills) = Ok tt /\
            SMACrossover.position_of (fst (snd (final fills))) symbol =
            stored (spec_position symbol fills Flat)).
  { intros fills.
    destruct (run_fills_positions symbol fills (SMACrossover.__init__ cfg)
                empty_context Flat) as (Hok & _ & Hpos); [reflexivity|].
    split; assumption. }
  split; [exact on_bar_keeps_positions|].
  split; [|split; [exact Hrun|split]].
  - intros self ctx q pr ts. repeat split.
    + intros Hp. exact (Hstep _ _ _ _ _ Short Buy Hp).
    + intros [Hp|Hp]; [exact (Hstep _ _ _ _ _ Flat Buy Hp)
                      | exact (Hstep _ _ _ _ _ Long Buy Hp)].
    + intros Hp. exact (Hstep _ _ _ _ _ Long Sell Hp).
    + intros [Hp|Hp]; [exact (Hstep _ _ _ _ _ Flat Sell Hp)
                      | exact (Hstep _ _ _ _ _ Short Sell Hp)].
  - intros. rewrite (proj2 (Hrun _)). unfold spec_position, side_of. simpl.
    rewrite String.eqb_refl. reflexivity.
  - intros. rewrite (proj2 (Hrun _)). unfold spec_position, side_of. simpl.
    rewrite String.eqb_refl. reflexivity.
Qed.

Lemma positions_follow_fills_witness :
  let self := SMACrossover.set_position "AAPL" (Some "short")
                (SMACrossover.__init__ SMACrossover.CONFIG) in
  SMACrossover.position_of self "AAPL" = stored Short /\
  SMACrossover.position_of
    (fst (snd (SMACrossover.on_position_filled (sample_fill "buy" 100)
                 (self, empty_context)))) "AAPL" = stored Flat.
Proof.
  intros self. split; [reflexivity|].
  apply (proj1 (proj1 (proj2 (positions_follow_fills SMACrossover.CONFIG "AAPL"))
                  self empty_context 100%Q 10%Q "2024-11-04T00:00:00Z")).
  reflexivity.
Defined.

(** ** The buy-and-hold strategy *)

Section BuyAndHold.
Import BuyAndHoldStrategy.
Variable str : Q -> string.
Local Abbreviation on_bar := (BuyAndHoldStrategy.on_bar str).

Lemma hold_on_bar_first (self : t) (ctx : Context) bar :
  _bought self = false ->
  on_bar bar (self, ctx) =
  (Ok tt, (mk (config self) true,
           mkContext (get_bars ctx) (get_price ctx)
             (emitted ctx ++ [initial_purchase str (config self) bar]) (tracked ctx))).
Proof. intros Hb. unfold on_bar. unfold_monad. simpl. rewrite Hb. reflexivity. Qed.

Lemma hold_on_bar_later (self : t) (ctx : Context) bar :
  _bought self = true -> on_bar bar (self, ctx) = (Ok tt, (self, ctx)).
Proof. intros Hb. unfold on_bar. unfold_monad. simpl. rewrite Hb. reflexivity. Qed.

Lemma drop_own_length {A} (l : list A) : skipn (length l) l = [].
Proof. apply skipn_all. Qed.

Lemma hold_after_purchase (events : list Event) :
  forall history (self : t) (ctx : Context),
  _bought self = true ->
  outputs on_bar on_position_filled events history (self, ctx) =
    map (fun _ => []) events /\
  fst (run on_bar on_position_filled events history (self, ctx)) = Ok tt /\
  emitted (snd (snd (run on_bar on_position_filled events history (self, ctx)))) =
    emitted ctx.
Proof.
  induction events as [|[bar|fill] events IH]; intros history self ctx Hb; simpl.
  - auto.
  - rewrite hold_on_bar_later by assumption. simpl.
    rewrite drop_own_length. simpl.
    destruct (IH (history ++ [bar]) self (context_at (history ++ [bar]) ctx) Hb)
      as (-> & -> & ->).
    auto.
  - rewrite drop_own_length. simpl.
    destruct (IH history self ctx Hb) as (-> & -> & ->). auto.
Qed.

Lemma hold_fills_first (fills : list FillEvent) (events : list Event) :
  forall history (w : t * Context),
  outputs on_bar on_position_filled (map OnFill fills ++ events) history w =
    map (fun _ => []) fills ++ outputs on_bar on_position_filled events history w /\
  run on_bar on_position_filled (map OnFill fills ++ events) history w =
    run on_bar on_position_filled events history w.
Proof.
  induction fills as [|fill fills IH]; intros history w; simpl; [auto|].
  rewrite drop_own_length. simpl.
  destruct (IH history w) as (-> & ->). auto.
Qed.
End BuyAndHold.

(** C7. Over any run that delivers at least one bar, with fills
    delivered anywhere before, between or after the bars, the
    buy-and-hold strategy emits exactly one signal: an open-long, on the
    first bar it is given.  Every other event of the run, bar or fill,
    emits nothing. *)
Theorem single_shot_emits_once (str : Q -> string)
    (cfg : BuyAndHoldStrategy.BuyAndHoldConfig)
    (fills : list FillEvent) (bar : PriceBarEvent) (rest : list Event) :
  let start := (BuyAndHoldStrategy.__init__ cfg, empty_context) in
  let events := map OnFill fills ++ OnBar bar :: rest in
  let r := run (BuyAndHoldStrategy.on_bar str) BuyAndHoldStrategy.on_position_filled
               events [] start in
  outputs (BuyAndHoldStrategy.on_bar str) BuyAndHoldStrategy.on_position_filled
          events [] start =
    map (fun _ => []) fills ++ [OPEN_LONG] :: map (fun _ => []) rest /\
  fst r = Ok tt /\
  emitted (snd (snd r)) = [initial_purchase str cfg bar] /\
  intention (initial_purchase str cfg bar) = OPEN_LONG /\
  sig_timestamp (initial_purchase str cfg bar) = timestamp bar.
Proof.
  intros start events r. subst r events.
  destruct (hold_fills_first str fills (OnBar bar :: rest) [] start) as (-> & ->).
  subst start. cbn [outputs run fst snd app].
  rewrite hold_on_bar_first by reflexivity. cbn [fst snd emitted context_at].
  match goal with
  | |- context [outputs _ _ rest ?h (?s, ?c)] =>
    destruct (hold_after_purchase str rest h s c eq_refl) as (-> & -> & ->)
  end.
  simpl. auto.
Qed.

(** ** The calendar

    Facts about day ordinals and the ISO year and week as Python's
    [datetime] computes them. *)

Section Calendar.
Import datetime.

Ltac eval_to_nat :=
  repeat match goal with
  | |- context [Z.to_nat (Zpos ?p)] =>
    let n := eval vm_compute in (Z.to_nat (Zpos p)) in
    change (Z.to_nat (Zpos p)) with n
  | H : context [Z.to_nat (Zpos ?p)] |- _ =>
    let n := eval vm_compute in (Z.to_nat (Zpos p)) in
    change (Z.to_nat (Zpos p)) with n in H
  end.

Lemma year_length (y : Z) :
  _days_before_year (y + 1) =
  _days_before_year y + 365 + (if _is_leap y then 1 else 0).
Proof.
  unfold _days_before_year, _is_leap.
  replace (y + 1 - 1) with y by lia.
  destruct (Z.eqb_spec (y mod 4) 0), (Z.eqb_spec (y mod 100) 0),
    (Z.eqb_spec (y mod 400) 0); cbn [negb andb orb];
    Z.div_mod_to_equations; lia.
Qed.

Lemma years_grow (a b : Z) :
  a <= b -> _days_before_year a + 365 * (b - a) <= _days_before_year b.
Proof.
  intros Hab. pattern b. apply (Zlt_lower_bound_ind _ a); [|exact Hab].
  intros x IH Hx. destruct (Z.eq_dec x a) as [->|Hne]; [lia|].
  specialize (IH (x - 1) ltac:(lia)).
  pose proof (year_length (x - 1)) as Hy.
  replace (x - 1 + 1) with x in Hy by lia.
  destruct (_is_leap (x - 1)); lia.
Qed.

Lemma ordinal_in_year (d : t) :
  valid_date d ->
  _days_before_year (year d) + 1 <= toordinal d <= _days_before_year (year d + 1).
Proof.
  unfold valid_date, _check_date_fields, toordinal, _ymd2ord. intros Hv.
  rewrite !andb_true_iff, !Z.leb_le in Hv.
  destruct Hv as (((((_ & _) & Hm1) & Hm2) & Hd1) & Hd2).
  rewrite year_length.
  unfold _days_in_month in Hd2. unfold _days_before_month.
  assert (Hm : month d = 1 \/ month d = 2 \/ month d = 3 \/ month d = 4 \/
               month d = 5 \/ month d = 6 \/ month d = 7 \/ month d = 8 \/
               month d = 9 \/ month d = 10 \/ month d = 11 \/ month d = 12) by lia.
  destruct (_is_leap (year d));
    repeat (destruct Hm as [Hm|Hm]); rewrite Hm in *; eval_to_nat;
    cbn in Hd2 |- *; lia.
Qed.

Lemma week1monday_spec (y : Z) :
  (_isoweek1monday y - 1) mod 7 = 0 /\
  _days_before_year y - 2 <= _isoweek1monday y <= _days_before_year y + 4.
Proof.
  unfold _isoweek1monday, _ymd2ord, _days_before_month. eval_to_nat.
  cbn [nth _DAYS_BEFORE_MONTH Z.ltb Z.compare Pos.compare Pos.compare_cont andb].
  generalize (_days_before_year y). intros n.
  match goal with |- context [3 <? ?x] => destruct (Z.ltb_spec 3 x) end;
    Z.div_mod_to_equations; lia.
Qed.

Lemma week1monday_grows (a b : Z) :
  a < b -> _isoweek1monday (a + 1) <= _isoweek1monday b.
Proof.
  intros Hab. destruct (Z.eq_dec b (a + 1)) as [->|Hne]; [lia|].
  pose proof (years_grow (a + 1) (b - 1) ltac:(lia)).
  pose proof (year_length (b - 1)) as Hy. replace (b - 1 + 1) with b in Hy by lia.
  pose proof (week1monday_spec (a + 1)). pose proof (week1monday_spec b).
  destruct (_is_leap (b - 1)); lia.
Qed.

(** The ISO year and week of a valid date, by the week-one Mondays. *)
Lemma isocalendar_spec (d : t) :
  valid_date d ->
  let '(y, w, wd) := isocalendar d in
  _isoweek1monday y <= toordinal d < _isoweek1monday (y + 1) /\
  w = (toordinal d - _isoweek1monday y) / 7 + 1 /\
  wd = weekday d + 1.
Proof.
  intros Hv. pose proof (ordinal_in_year d Hv) as Hord.
  unfold isocalendar, weekday.
  pose proof (week1monday_spec (year d)) as H0.
  pose proof (week1monday_spec (year d - 1)) as Hm.
  pose proof (week1monday_spec (year d + 1)) as Hp.
  pose proof (week1monday_spec (year d + 1 + 1)) as Hpp.
  pose proof (year_length (year d)) as Hy.
  pose proof (year_length (year d - 1)) as Hym.
  pose proof (year_length (year d + 1)) as Hyp.
  replace (year d - 1 + 1) with (year d) in Hym by lia.
  destruct (Z.ltb_spec ((toordinal d - _isoweek1monday (year d)) / 7) 0);
    [|destruct (Z.leb_spec 52 ((toordinal d - _isoweek1monday (year d)) / 7)),
        (Z.leb_spec (_isoweek1monday (year d + 1)) (toordinal d));
      cbn [andb]];
    cbv beta iota zeta;
    replace (year d - 1 + 1) with (year d) by lia;
    destruct (_is_leap (year d)), (_is_leap (year d - 1)), (_is_leap (year d + 1));
    Z.div_mod_to_equations; lia.
Qed.

(** Two valid dates have the same ISO year and week exactly when they
    fall in the same Monday-to-Sunday week. *)
Lemma same_iso_year_week (d1 d2 : t) :
  valid_date d1 -> valid_date d2 ->
  iso_year_week d1 = iso_year_week d2 <-> calendar_week d1 = calendar_week d2.
Proof.
  intros Hv1 Hv2. unfold iso_year_week, calendar_week.
  pose proof (isocalendar_spec d1 Hv1) as H1.
  pose proof (isocalendar_spec d2 Hv2) as H2.
  destruct (isocalendar d1) as [[y1 w1] wd1], (isocalendar d2) as [[y2 w2] wd2].
  destruct H1 as (Hin1 & -> & _), H2 as (Hin2 & -> & _).
  pose proof (week1monday_spec y1) as [Hmod1 _].
  pose proof (week1monday_spec y2) as [Hmod2 _].
  pose proof (week1monday_spec (y1 + 1)) as [Hmod1' _].
  pose proof (week1monday_spec (y2 + 1)) as [Hmod2' _].
  split.
  - intros [= <- Hw]. Z.div_mod_to_equations; lia.
  - intros Hblock.
    assert (y1 = y2) as <-.
    { destruct (Z.lt_trichotomy y1 y2) as [Hlt|[Heq|Hgt]]; [|exact Heq|].
      - pose proof (week1monday_grows y1 y2 Hlt). Z.div_mod_to_equations; lia.
      - pose proof (week1monday_grows y2 y1 ltac:(lia)). Z.div_mod_to_equations; lia. }
    f_equal. Z.div_mod_to_equations; lia.
Qed.

(** The ISO year of a valid date is the calendar year of the Thursday
    of its week, and its ISO week counts the Thursdays of that year up
    to that one. *)
Lemma isocalendar_thursday (d : t) :
  valid_date d ->
  let '(y, w, wd) := isocalendar d in
  let thursday := 7 * calendar_week d + 4 in
  _days_before_year y < thursday <= _days_before_year (y + 1) /\
  w = (thursday - _days_before_year y - 1) / 7 + 1 /\
  wd = weekday d + 1.
Proof.
  intros Hv. pose proof (isocalendar_spec d Hv) as Hs. unfold calendar_week.
  destruct (isocalendar d) as [[y w] wd]. destruct Hs as (Hin & -> & ->).
  pose proof (week1monday_spec y) as [Hmod1 ?].
  pose proof (week1monday_spec (y + 1)) as [Hmod2 ?].
  cbv zeta. repeat split; Z.div_mod_to_equations; lia.
Qed.
End Calendar.

(** ** Week keys

    The text of a week key determines the ISO year and week. *)

Lemma pretty_N_go_free (x : N) : forall s, free_of_W s -> free_of_W (pretty_N_go x s).
Proof.
  induction (N.lt_wf_0 x) as [x _ IH]. intros s Hs.
  destruct (decide (x = 0)%N) as [->|Hx]; [rewrite pretty_N_go_0; exact Hs|].
  rewrite pretty_N_go_step by lia. apply IH; [apply N.div_lt; lia|].
  split; [|exact Hs]. unfold pretty_N_char. repeat case_match; discriminate.
Qed.

Lemma pretty_Z_free (z : Z) : free_of_W (pretty z).
Proof.
  destruct z as [|p|p]; unfold pretty, pretty_Z, pretty, pretty_positive, pretty, pretty_N.
  - cbn. split; [discriminate|exact I].
  - case_decide; [discriminate|]. apply pretty_N_go_free. exact I.
  - cbn [append]. split; [discriminate|].
    case_decide; [discriminate|]. apply pretty_N_go_free. exact I.
Qed.

Lemma split_at_dash_W (a1 : string) : forall a2 r1 r2,
  free_of_W a1 -> free_of_W a2 ->
  a1 +:+ String "-" (String "W" r1) = a2 +:+ String "-" (String "W" r2) ->
  a1 = a2 /\ r1 = r2.
Proof.
  induction a1 as [|c a1 IH]; intros [|c' a2] r1 r2 H1 H2 Heq; cbn in Heq.
  - injection Heq as ->. split; reflexivity.
  - injection Heq as <- Heq. destruct a2 as [|c'' a2]; cbn in Heq.
    + discriminate.
    + injection Heq as <- _. destruct H2 as [_ [H2 _]]. congruence.
  - injection Heq as -> Heq. destruct a1 as [|c'' a1]; cbn in Heq.
    + discriminate.
    + injection Heq as -> _. destruct H1 as [_ [H1 _]]. congruence.
  - injection Heq as <- Heq. destruct H1 as [_ H1], H2 as [_ H2].
    destruct (IH a2 r1 r2 H1 H2 Heq) as [-> ->]. split; reflexivity.
Qed.

Lemma pretty_N_go_head (x : N) : forall s,
  (0 < x)%N -> exists c r, pretty_N_go x s = String c r /\ c <> "0"%char.
Proof.
  induction (N.lt_wf_0 x) as [x _ IH]. intros s Hx.
  rewrite pretty_N_go_step by exact Hx.
  destruct (decide (x `div` 10 = 0)%N) as [Hq|Hq].
  - rewrite Hq, pretty_N_go_0. eexists _, _. split; [reflexivity|].
    assert (x < 10)%N.
    { pose proof (N.div_mod x 10 ltac:(lia)) as Hdm.
      pose proof (N.mod_lt x 10 ltac:(lia)). rewrite Hq in Hdm. lia. }
    rewrite N.mod_small by assumption.
    assert (x = 1 \/ x = 2 \/ x = 3 \/ x = 4 \/ x = 5 \/ x = 6
            \/ x = 7 \/ x = 8 \/ x = 9)%N as Hcases by lia.
    repeat (destruct Hcases as [->|Hcases]); try subst x; discriminate.
  - apply IH; [apply N.div_lt; lia|apply N.neq_0_lt_0; exact Hq].
Qed.

Lemma pretty_Z_head (z : Z) (s : string) : pretty z = String "0" s -> z = 0.
Proof.
  destruct z as [|p|p]; [reflexivity|..];
    unfold pretty, pretty_Z, pretty, pretty_positive, pretty, pretty_N.
  - case_decide; [discriminate|].
    destruct (pretty_N_go_head (N.pos p) "" ltac:(lia)) as (c & r & -> & Hc).
    intros [= -> _]. congruence.
  - cbn [append]. discriminate.
Qed.

Lemma format_02d_inj (a b : Z) : format_02d a = format_02d b -> a = b.
Proof.
  unfold format_02d.
  destruct (Z.leb_spec 0 a), (Z.ltb_spec a 10), (Z.leb_spec 0 b), (Z.ltb_spec b 10);
    cbn [andb append]; intros Heq;
    try (apply (inj pretty); assumption || (injection Heq; auto; fail));
    try (apply pretty_Z_head in Heq; lia);
    try (symmetry in Heq; apply pretty_Z_head in Heq; lia).
Qed.

Lemma week_key_names_iso_week (d1 d2 : datetime.t) :
  WeeklyMondayFriday._get_week_key d1 = WeeklyMondayFriday._get_week_key d2 <->
  iso_year_week d1 = iso_year_week d2.
Proof.
  unfold WeeklyMondayFriday._get_week_key, iso_year_week.
  destruct (datetime.isocalendar d1) as [[y1 w1] wd1].
  destruct (datetime.isocalendar d2) as [[y2 w2] wd2].
  split; [|intros [= -> ->]; reflexivity].
  change ("-W" +:+ format_02d w1) with (String "-" (String "W" (format_02d w1))).
  change ("-W" +:+ format_02d w2) with (String "-" (String "W" (format_02d w2))).
  intros Heq.
  apply split_at_dash_W in Heq as [Hy Hw]; [|apply pretty_Z_free..].
  apply (inj pretty) in Hy. apply format_02d_inj in Hw. congruence.
Qed.

Lemma week_key_names_week (d1 d2 : datetime.t) :
  valid_date d1 -> valid_date d2 ->
  WeeklyMondayFriday._get_week_key d1 = WeeklyMondayFriday._get_week_key d2 <->
  calendar_week d1 = calendar_week d2.
Proof.
  intros Hv1 Hv2. rewrite week_key_names_iso_week.
  apply same_iso_year_week; assumption.
Qed.

(** ** The weekly strategy *)

Section Weekly.
Import WeeklyMondayFriday.
Variable fromisoformat : string -> result datetime.t.

Local Abbreviation on_bar := (WeeklyMondayFriday.on_bar fromisoformat).

(** What [on_bar] does once the timestamp parses and a price is
    there. *)
Lemma weekly_on_bar_eq (self : t) (ctx : Context) (bar : PriceBarEvent)
    (ts : datetime.t) (current_price : Q) :
  fromisoformat (replace_Z (timestamp bar)) = Ok ts ->
  get_price ctx (symbol bar) = Some current_price ->
  let has_position := default false (_positions self !! symbol bar) in
  let week_key := _get_week_key ts in
  let emit intent why day :=
    mkContext (get_bars ctx) (get_price ctx)
      (emitted ctx ++
       [mkSignal (timestamp bar) (symbol bar) intent current_price
          (confidence (config self)) why (week_metadata day week_key)])
      (tracked ctx) in
  on_bar bar (self, ctx) =
  if datetime.weekday ts =? 0 then
    if negb has_position &&
       negb (bool_decide (_traded_this_week self !! symbol bar = Some week_key))
    then (Ok tt, (set_traded (symbol bar) week_key self,
                  emit OPEN_LONG (MondayEntry week_key) "Monday"))
    else (Ok tt, (self, ctx))
  else if datetime.weekday ts =? 4 then
    if has_position
    then (Ok tt, (self, emit CLOSE_LONG (FridayExit week_key) "Friday"))
    else (Ok tt, (self, ctx))
  else (Ok tt, (self, ctx)).
Proof.
  intros Hts Hprice has_position week_key emit.
  unfold WeeklyMondayFriday.on_bar. unfold_monad. cbn [fst snd].
  rewrite Hts. cbn [fst snd]. rewrite Hprice. fold has_position week_key.
  destruct (datetime.weekday ts =? 0).
  - destruct (negb has_position && _); reflexivity.
  - destruct (datetime.weekday ts =? 4); [|reflexivity].
    destruct has_position; reflexivity.
Qed.

Lemma price_at history (bar : PriceBarEvent) (c : Context) (s : string) :
  get_price (context_at (history ++ [bar]) c) s = Some (close bar).
Proof. simpl. rewrite last_snoc. reflexivity. Qed.

Lemma drop_appended {A} (l k : list A) : skipn (length l) (l ++ k) = k.
Proof. apply drop_app_length. Qed.

(** One bar of a run. *)
Lemma weekly_bar_step (bar : PriceBarEvent) (ts : datetime.t) :
  fromisoformat (replace_Z (timestamp bar)) = Ok ts ->
  forall rest history (self : t) (c : Context),
  let week_key := _get_week_key ts in
  let has := positioned self (symbol bar) in
  let done := acted self (symbol bar) week_key in
  exists c',
    outputs on_bar on_position_filled (OnBar bar :: rest) history (self, c) =
    spec_calendar (datetime.weekday ts) has done ::
    outputs on_bar on_position_filled rest (history ++ [bar])
      (if (datetime.weekday ts =? 0) && negb has && negb done
       then set_traded (symbol bar) week_key self else self, c').
Proof.
  intros Hts rest history self c week_key has done.
  cbn [outputs fst snd].
  rewrite (weekly_on_bar_eq self _ bar ts (close bar) Hts (price_at _ _ _ _)).
  fold (positioned self (symbol bar)). fold week_key.
  fold (acted self (symbol bar) week_key). fold has done.
  unfold spec_calendar.
  destruct (datetime.weekday ts =? 0); cbn [andb].
  - destruct (negb has && negb done); cbn [fst snd emitted context_at];
      rewrite ?drop_appended, ?drop_own_length; eexists; reflexivity.
  - destruct (datetime.weekday ts =? 4); [destruct has|];
      cbn [fst snd emitted context_at];
      rewrite ?drop_appended, ?drop_own_length; eexists; reflexivity.
Qed.

(** One buy fill of a run. *)
Lemma weekly_buy_step (fill : FillEvent) :
  side fill = "buy" ->
  forall rest history (self : t) (c : Context),
  outputs on_bar on_position_filled (OnFill fill :: rest) history (self, c) =
  [] :: outputs on_bar on_position_filled rest history
          (set_position (fill_symbol fill) true self, c).
Proof.
  intros Hside rest history self c. cbn [outputs].
  unfold on_position_filled at 1. rewrite Hside. unfold_monad.
  cbn [fst snd String.eqb Ascii.eqb Bool.eqb andb].
  rewrite drop_own_length. reflexivity.
Qed.

Lemma acted_after_trade (self : t) (symbol week_key : string) :
  acted (set_traded symbol week_key self) symbol week_key = true.
Proof.
  unfold acted, set_traded. cbn [_traded_this_week].
  rewrite lookup_insert_eq. apply bool_decide_eq_true_2. reflexivity.
Qed.

(** One fill of a run, whatever its side. *)
Lemma weekly_fill_step (fill : FillEvent) rest history (self : t) (c : Context) :
  outputs on_bar on_position_filled (OnFill fill :: rest) history (self, c) =
  [] :: outputs on_bar on_position_filled rest history
          (if String.eqb (side fill) "buy"
           then set_position (fill_symbol fill) true self
           else if String.eqb (side fill) "sell"
           then set_position (fill_symbol fill) false self
           else self, c).
Proof.
  cbn [outputs]. unfold on_position_filled at 1.
  destruct (String.eqb (side fill) "buy");
    [|destruct (String.eqb (side fill) "sell")];
    unfold_monad; cbn [fst snd]; rewrite drop_own_length; reflexivity.
Qed.

Lemma not_before_later date_of sym week e rest :
  not_before date_of sym week (e :: rest) = true ->
  not_before date_of sym week rest = true.
Proof.
  unfold not_before. cbn [forallb]. intros [_ H]%andb_true_iff. exact H.
Qed.

Lemma not_before_bar date_of week (bar : PriceBarEvent) rest :
  not_before date_of (symbol bar) week (OnBar bar :: rest) = true ->
  week <= calendar_week (date_of bar).
Proof.
  unfold not_before. cbn [forallb]. rewrite String.eqb_refl. cbn [negb orb].
  intros [H _]%andb_true_iff. apply Z.leb_le. exact H.
Qed.

(** During a run in week order the stored key tells whether the
    period of the bar is marked. *)
Lemma guard_tells_acted date_of (self : t) held marked (bar : PriceBarEvent) rest :
  guard_inv date_of self held marked (OnBar bar :: rest) ->
  valid_date (date_of bar) ->
  acted self (symbol bar) (_get_week_key (date_of bar)) =
  bool_decide ((symbol bar, calendar_week (date_of bar)) ∈ marked).
Proof.
  intros [_ Hg] Hv. specialize (Hg (symbol bar)). unfold acted.
  destruct (_traded_this_week self !! symbol bar) as [key|].
  - destruct Hg as (d & Hd & -> & Hin & Hmax & Hnb).
    apply not_before_bar in Hnb.
    destruct (decide (calendar_week d = calendar_week (date_of bar))) as [Heq|Hne].
    + rewrite !bool_decide_eq_true_2; [reflexivity|rewrite <- Heq; exact Hin|].
      f_equal. apply week_key_names_week; assumption.
    + rewrite !bool_decide_eq_false_2; [reflexivity|..].
      * intros Hin'. apply Hmax in Hin'. lia.
      * intros [= Hk]. apply week_key_names_week in Hk; auto.
  - rewrite !bool_decide_eq_false_2; [reflexivity|apply Hg|discriminate].
Qed.

Lemma guard_after_bar date_of (self : t) held marked (bar : PriceBarEvent) rest
    (opens : bool) :
  guard_inv date_of self held marked (OnBar bar :: rest) ->
  valid_date (date_of bar) ->
  not_before date_of (symbol bar) (calendar_week (date_of bar)) rest = true ->
  guard_inv date_of
    (if opens then set_traded (symbol bar) (_get_week_key (date_of bar)) self
     else self)
    held
    (if opens then {[ (symbol bar, calendar_week (date_of bar)) ]} ∪ marked
     else marked)
    rest.
Proof.
  intros [Hpos Hg] Hv Hnb. destruct opens.
  - split; [exact Hpos|]. intros sym. cbn [set_traded _traded_this_week].
    destruct (decide (sym = symbol bar)) as [->|Hne].
    + rewrite lookup_insert_eq. exists (date_of bar).
      split; [exact Hv|]. split; [reflexivity|]. split; [set_solver|].
      split; [|exact Hnb].
      intros week [Hin|Hin]%elem_of_union.
      * apply elem_of_singleton in Hin. injection Hin as ->. lia.
      * specialize (Hg (symbol bar)).
        destruct (_traded_this_week self !! symbol bar).
        -- destruct Hg as (d & _ & _ & _ & Hmax & Hnb').
           apply not_before_bar in Hnb'. apply Hmax in Hin. lia.
        -- destruct (Hg week Hin).
    + rewrite lookup_insert_ne by congruence. specialize (Hg sym).
      destruct (_traded_this_week self !! sym).
      * destruct Hg as (d & Hd & Hk & Hin & Hmax & Hnb').
        exists d. split; [exact Hd|]. split; [exact Hk|]. split; [set_solver|].
        split; [|exact (not_before_later _ _ _ _ _ Hnb')].
        intros week [Hin'|Hin']%elem_of_union; [|auto].
        apply elem_of_singleton in Hin'. congruence.
      * intros week [Hin'|Hin']%elem_of_union; [|exact (Hg week Hin')].
        apply elem_of_singleton in Hin'. congruence.
  - split; [exact Hpos|]. intros sym. specialize (Hg sym).
    destruct (_traded_this_week self !! sym); [|exact Hg].
    destruct Hg as (d & Hd & Hk & Hin & Hmax & Hnb').
    exists d. eauto 10 using not_before_later.
Qed.

Lemma guard_after_fill date_of (self : t) held marked (fill : FillEvent) rest :
  guard_inv date_of self held marked (OnFill fill :: rest) ->
  guard_inv date_of
    (if String.eqb (side fill) "buy"
     then set_position (fill_symbol fill) true self
     else if String.eqb (side fill) "sell"
     then set_position (fill_symbol fill) false self
     else self)
    (spec_apply_fill fill held) marked rest.
Proof.
  intros [Hpos Hg]. split.
  - intros sym. unfold spec_apply_fill.
    destruct (String.eqb (side fill) "buy");
      [|destruct (String.eqb (side fill) "sell")]; [..|apply Hpos];
      unfold positioned, set_position; cbn [_positions];
      (destruct (decide (sym = fill_symbol fill)) as [->|Hne];
       [rewrite lookup_insert_eq|rewrite lookup_insert_ne by congruence;
        fold (positioned self sym); rewrite Hpos];
       cbn [default from_option id]).
    + symmetry. apply bool_decide_eq_true_2.
      apply elem_of_union_l, elem_of_singleton. reflexivity.
    + apply bool_decide_ext. rewrite elem_of_union, elem_of_singleton.
      intuition congruence.
    + symmetry. apply bool_decide_eq_false_2.
      rewrite elem_of_difference, elem_of_singleton. intuition congruence.
    + apply bool_decide_ext. rewrite elem_of_difference, elem_of_singleton.
      intuition congruence.
  - intros sym. specialize (Hg sym).
    replace (_traded_this_week _) with (_traded_this_week self)
      by (destruct (String.eqb (side fill) "buy");
          [|destruct (String.eqb (side fill) "sell")]; reflexivity).
    destruct (_traded_this_week self !! sym); [|exact Hg].
    destruct Hg as (d & Hd & Hk & Hin & Hmax & Hnb').
    exists d. eauto 10 using not_before_later.
Qed.

(** A run whose bars parse and come in week order emits what the
    policy over marked periods emits. *)
Lemma weekly_refines date_of : forall events history (self : t) (c : Context)
    held marked,
  (forall bar, In (OnBar bar) events ->
     fromisoformat (replace_Z (timestamp bar)) = Ok (date_of bar) /\
     valid_date (date_of bar)) ->
  weeks_in_order date_of events = true ->
  guard_inv date_of self held marked events ->
  outputs on_bar on_position_filled events history (self, c) =
  spec_week_run date_of events held marked.
Proof.
  induction events as [|[bar|fill] rest IH];
    intros history self c held marked Hparse Hord Hinv.
  - reflexivity.
  - destruct (Hparse bar (or_introl eq_refl)) as [Hts Hv].
    cbn [weeks_in_order] in Hord. apply andb_true_iff in Hord as [Hnb Hord].
    destruct (weekly_bar_step bar (date_of bar) Hts rest history self c) as [c' ->].
    cbn [spec_week_run].
    rewrite (guard_tells_acted _ _ _ _ _ _ Hinv Hv), (proj1 Hinv (symbol bar)).
    f_equal. apply IH; [|exact Hord|].
    + intros b Hb. apply Hparse. right. exact Hb.
    + apply guard_after_bar; assumption.
  - rewrite weekly_fill_step. cbn [spec_week_run]. f_equal.
    apply IH; [|exact Hord|apply guard_after_fill; exact Hinv].
    intros b Hb. apply Hparse. right. exact Hb.
Qed.

Lemma guard_at_start date_of cfg events : guard_inv date_of (__init__ cfg) ∅ ∅ events.
Proof.
  split; intros sym.
  - unfold positioned, __init__. cbn [_positions]. rewrite lookup_empty.
    symmetry. apply bool_decide_eq_false_2. set_solver.
  - unfold __init__. cbn [_traded_this_week]. rewrite lookup_empty. set_solver.
Qed.

Ltac weekly_lookups :=
  unfold positioned, acted, set_traded, set_position, __init__;
  cbn [_positions _traded_this_week];
  rewrite ?lookup_insert_eq, ?lookup_empty;
  cbn [default from_option id].

Ltac weekly_bar Hparse Hday Hsym :=
  let c := fresh "c" in
  let E := fresh "E" in
  edestruct (weekly_bar_step _ _ Hparse) as [c E];
  rewrite E; clear E; rewrite Hday, Hsym;
  weekly_lookups;
  rewrite ?bool_decide_eq_false_2 by discriminate;
  cbn [spec_calendar Z.eqb Pos.eqb negb andb].

Ltac weekly_fill Hside Hsym :=
  rewrite (weekly_buy_step _ Hside); rewrite Hsym.

Lemma acted_by_last_entry (self : t) (sym : string) last ts :
  last_entry self sym last -> valid_date ts ->
  acted self sym (_get_week_key ts) = true <->
  calendar_week <$> last = Some (calendar_week ts).
Proof.
  intros [Hkey Hv0] Hv. unfold acted. rewrite Hkey, bool_decide_eq_true.
  destruct last as [d0|]; cbn [fmap option_fmap option_map from_option] in *.
  - split; intros [= H]; f_equal; apply (week_key_names_week d0 ts); assumption.
  - split; discriminate.
Qed.

(** C8. With a current price available: on a Monday bar the policy
    emits an open-long exactly when it holds no position for the symbol
    and has not acted for it in the ISO year-week of the bar, and it
    then records that week as acted; on a Friday bar it emits a
    close-long exactly when it holds a position; on any other weekday it
    emits nothing and changes nothing.

    The period is the ISO year-week: two week keys are equal exactly
    when the ISO year and the ISO week number agree, and two dates have
    the same ISO year and week exactly when they fall in the same
    Monday-to-Sunday week; the ISO year is the calendar year that holds
    the Thursday of that week, and the week number counts the Thursdays
    of that year up to it.

    In terms of the day of the strategy's latest entry for the symbol:
    a Monday bar opens exactly when no position is held and that entry,
    if there was one, lies in another week; the bar is then the latest
    entry.  A fresh strategy has none, and neither fills nor bars of
    other symbols change it.

    Over a run from a fresh strategy whose timestamps parse and whose
    bars, per symbol, never go back to an earlier week, the strategy
    emits what the policy emits that keeps, per symbol, whether a
    position is held and the set of weeks acted in.  So a week of daily
    bars Monday to Friday from a fresh strategy, with the buy fill of
    the Monday signal delivered anywhere before the Friday bar, emits
    one open-long on Monday, one close-long on Friday and nothing in
    between. *)
Theorem calendar_policy :
  (forall (self : t) (ctx : Context) (bar : PriceBarEvent) ts current_price,
     fromisoformat (replace_Z (timestamp bar)) = Ok ts ->
     get_price ctx (symbol bar) = Some current_price ->
     let r := on_bar bar (self, ctx) in
     let self' := fst (snd r) in
     let week_key := _get_week_key ts in
     let new := map intention (skipn (length (emitted ctx)) (emitted (snd (snd r)))) in
     fst r = Ok tt /\
     _positions self' = _positions self /\
     (new = [OPEN_LONG] \/ new = [CLOSE_LONG] \/ new = []) /\
     (datetime.weekday ts = 0 ->
        (new = [OPEN_LONG] <->
           positioned self (symbol bar) = false /\
           acted self (symbol bar) week_key = false) /\
        (new = [OPEN_LONG] -> acted self' (symbol bar) week_key = true) /\
        (new <> [OPEN_LONG] -> new = [] /\ self' = self)) /\
     (datetime.weekday ts = 4 ->
        (new = [CLOSE_LONG] <-> positioned self (symbol bar) = true) /\
        (new <> [CLOSE_LONG] -> new = []) /\
        self' = self) /\
     (datetime.weekday ts <> 0 -> datetime.weekday ts <> 4 ->
        new = [] /\ self' = self)) /\
  (forall d1 d2,
     (_get_week_key d1 = _get_week_key d2 <-> iso_year_week d1 = iso_year_week d2) /\
     (valid_date d1 -> valid_date d2 ->
      (iso_year_week d1 = iso_year_week d2 <-> calendar_week d1 = calendar_week d2))) /\
  (forall d, valid_date d ->
     let thursday := 7 * calendar_week d + 4 in
     let '(year, week) := iso_year_week d in
     datetime._days_before_year year < thursday
       <= datetime._days_before_year (year + 1) /\
     week = (thursday - datetime._days_before_year year - 1) / 7 + 1) /\
  (forall (self : t) (ctx : Context) (bar : PriceBarEvent) ts current_price last,
     fromisoformat (replace_Z (timestamp bar)) = Ok ts ->
     get_price ctx (symbol bar) = Some current_price ->
     valid_date ts ->
     last_entry self (symbol bar) last ->
     datetime.weekday ts = 0 ->
     let r := on_bar bar (self, ctx) in
     let self' := fst (snd r) in
     let new := map intention (skipn (length (emitted ctx)) (emitted (snd (snd r)))) in
     (new = [OPEN_LONG] <->
        positioned self (symbol bar) = false /\
        calendar_week <$> last <> Some (calendar_week ts)) /\
     (new = [OPEN_LONG] -> last_entry self' (symbol bar) (Some ts)) /\
     (forall other, other <> symbol bar ->
        _traded_this_week self' !! other = _traded_this_week self !! other)) /\
  (forall cfg sym, last_entry (__init__ cfg) sym None) /\
  (forall (self : t) (ctx : Context) (fill : FillEvent),
     _traded_this_week (fst (snd (on_position_filled fill (self, ctx))))
     = _traded_this_week self) /\
  (forall cfg (date_of : PriceBarEvent -> datetime.t) (events : list Event),
     (forall bar, In (OnBar bar) events ->
        fromisoformat (replace_Z (timestamp bar)) = Ok (date_of bar) /\
        valid_date (date_of bar)) ->
     weeks_in_order date_of events = true ->
     outputs on_bar on_position_filled events [] (__init__ cfg, empty_context) =
     spec_week_run date_of events ∅ ∅) /\
  (forall cfg (mon tue wed thu fri : PriceBarEvent) d0 d1 d2 d3 d4
          (fill : FillEvent) (k : nat) (sym : string),
     fromisoformat (replace_Z (timestamp mon)) = Ok d0 ->
     fromisoformat (replace_Z (timestamp tue)) = Ok d1 ->
     fromisoformat (replace_Z (timestamp wed)) = Ok d2 ->
     fromisoformat (replace_Z (timestamp thu)) = Ok d3 ->
     fromisoformat (replace_Z (timestamp fri)) = Ok d4 ->
     datetime.weekday d0 = 0 -> datetime.weekday d1 = 1 ->
     datetime.weekday d2 = 2 -> datetime.weekday d3 = 3 ->
     datetime.weekday d4 = 4 ->
     symbol mon = sym -> symbol tue = sym -> symbol wed = sym ->
     symbol thu = sym -> symbol fri = sym ->
     fill_symbol fill = sym -> side fill = "buy" ->
     outputs on_bar on_position_filled (week_events mon tue wed thu fri fill k) []
       (__init__ cfg, empty_context) =
     [[OPEN_LONG]; []; []; []; []; [CLOSE_LONG]]).
Proof.
  split; [|split; [|split; [|split; [|split; [|split; [|split]]]]]].
  - intros self ctx bar ts current_price Hts Hprice r self' week_key new.
    subst new self' r.
    rewrite (weekly_on_bar_eq self ctx bar ts current_price Hts Hprice).
    fold (positioned self (symbol bar)). fold week_key.
    fold (acted self (symbol bar) week_key).
    destruct (Z.eqb_spec (datetime.weekday ts) 0) as [H0|H0];
      [|destruct (Z.eqb_spec (datetime.weekday ts) 4) as [H4|H4]].
    + destruct (positioned self (symbol bar)), (acted self (symbol bar) week_key);
        cbn [negb andb fst snd emitted];
        rewrite ?drop_appended, ?drop_own_length; cbn [map intention];
        rewrite ?acted_after_trade;
        repeat split; auto; try congruence; try lia;
        try (intros [? ?]; congruence); try (intros; congruence).
    + destruct (positioned self (symbol bar));
        cbn [fst snd emitted];
        rewrite ?drop_appended, ?drop_own_length; cbn [map intention];
        repeat split; auto; try congruence; try lia.
    + cbn [fst snd emitted]. rewrite ?drop_own_length. cbn [map].
      repeat split; auto; try congruence; try lia.
  - intros d1 d2. split; [apply week_key_names_iso_week|].
    apply same_iso_year_week.
  - intros d Hv. pose proof (isocalendar_thursday d Hv) as Hth.
    unfold iso_year_week. destruct (datetime.isocalendar d) as [[y w] wd].
    cbv zeta in Hth |- *. tauto.
  - intros self ctx bar ts current_price last Hts Hprice Hv Hlast Hday r self' new.
    subst new self' r.
    rewrite (weekly_on_bar_eq self ctx bar ts current_price Hts Hprice).
    fold (positioned self (symbol bar)).
    fold (acted self (symbol bar) (_get_week_key ts)).
    pose proof (acted_by_last_entry self (symbol bar) last ts Hlast Hv) as Hacted.
    rewrite Hday. cbn [Z.eqb].
    destruct (positioned self (symbol bar)),
      (acted self (symbol bar) (_get_week_key ts));
      cbn [negb andb fst snd emitted];
      rewrite ?drop_appended, ?drop_own_length; cbn [map intention].
    + split; [|split]; [split; [discriminate|intros [? _]; discriminate]
                       |discriminate|reflexivity].
    + split; [|split]; [split; [discriminate|intros [? _]; discriminate]
                       |discriminate|reflexivity].
    + split; [|split]; [split; [discriminate|]|discriminate|reflexivity].
      intros [_ Hne]. destruct Hne. apply Hacted. reflexivity.
    + split; [|split].
      * split; [|reflexivity]. intros _. split; [reflexivity|].
        intros Heq. apply Hacted in Heq. discriminate.
      * intros _. split; [|exact Hv]. cbn [set_traded _traded_this_week].
        rewrite lookup_insert_eq. reflexivity.
      * intros other Hne. cbn [set_traded _traded_this_week].
        rewrite lookup_insert_ne by congruence. reflexivity.
  - intros cfg sym. split; [|exact I]. unfold __init__.
    cbn [_traded_this_week]. apply lookup_empty.
  - intros self ctx fill. unfold on_position_filled.
    destruct (String.eqb (side fill) "buy");
      [|destruct (String.eqb (side fill) "sell")]; reflexivity.
  - intros cfg date_of events Hparse Hord.
    apply weekly_refines; [exact Hparse|exact Hord|apply guard_at_start].
  - intros cfg mon tue wed thu fri d0 d1 d2 d3 d4 fill k sym
           Hp0 Hp1 Hp2 Hp3 Hp4 Hd0 Hd1 Hd2 Hd3 Hd4
           Hs0 Hs1 Hs2 Hs3 Hs4 Hsf Hside.
    unfold week_events.
    destruct k as [|[|[|k]]]; cbn [firstn skipn app];
      rewrite ?take_nil, ?drop_nil; cbn [app];
      weekly_bar Hp0 Hd0 Hs0;
      repeat first [ weekly_bar Hp1 Hd1 Hs1 | weekly_bar Hp2 Hd2 Hs2
                   | weekly_bar Hp3 Hd3 Hs3 | weekly_fill Hside Hsf ];
      weekly_bar Hp4 Hd4 Hs4; reflexivity.
Qed.
End Weekly.

Lemma calendar_policy_witness :
  (read_date (replace_Z "2024-12-30T09:30:00Z") = Ok (datetime.mk 2024 12 30 9 30 0) /\
   valid_date (datetime.mk 2024 12 30 9 30 0) /\
   datetime.weekday (datetime.mk 2024 12 30 9 30 0) = 0 /\
   WeeklyMondayFriday._get_week_key (datetime.mk 2024 12 30 9 30 0) = "2025-W01" /\
   weeks_in_order date_of_bar turn_of_year_run = true) /\
  outputs (WeeklyMondayFriday.on_bar read_date) WeeklyMondayFriday.on_position_filled
    turn_of_year_run []
    (WeeklyMondayFriday.__init__ WeeklyMondayFriday.CONFIG, empty_context) =
  [[OPEN_LONG]; []; []; [CLOSE_LONG]; []; [OPEN_LONG]] /\
  outputs (WeeklyMondayFriday.on_bar read_date) WeeklyMondayFriday.on_position_filled
    (week_events (sample_bar "2024-11-04T00:00:00Z" 10)
       (sample_bar "2024-11-05T00:00:00Z" 12) (sample_bar "2024-11-06T00:00:00Z" 11)
       (sample_bar "2024-11-07T00:00:00Z" 15) (sample_bar "2024-11-08T00:00:00Z" 14)
       (sample_fill "buy" 100) 1) []
    (WeeklyMondayFriday.__init__ WeeklyMondayFriday.CONFIG, empty_context) =
  [[OPEN_LONG]; []; []; []; []; [CLOSE_LONG]].
Proof.
  destruct (calendar_policy read_date) as (_ & _ & _ & _ & _ & _ & Hrun & Hweek).
  split; [repeat split; reflexivity|]. split.
  - rewrite (Hrun WeeklyMondayFriday.CONFIG date_of_bar turn_of_year_run).
    + reflexivity.
    + intros bar Hin. cbn [In turn_of_year_run] in Hin.
      repeat (destruct Hin as [Hin|Hin];
              [try discriminate; injection Hin as <-; split; reflexivity|]).
      destruct Hin.
    + reflexivity.
  - apply (Hweek WeeklyMondayFriday.CONFIG
             (sample_bar "2024-11-04T00:00:00Z" 10)
             (sample_bar "2024-11-05T00:00:00Z" 12) (sample_bar "2024-11-06T00:00:00Z" 11)
             (sample_bar "2024-11-07T00:00:00Z" 15) (sample_bar "2024-11-08T00:00:00Z" 14)
             (datetime.mk 2024 11 4 0 0 0) (datetime.mk 2024 11 5 0 0 0)
             (datetime.mk 2024 11 6 0 0 0) (datetime.mk 2024 11 7 0 0 0)
             (datetime.mk 2024 11 8 0 0 0)
             (sample_fill "buy" 100) 1%nat "AAPL");
      reflexivity.
Defined.

(** ** The windows of the crossover strategy *)

Lemma window_ending_length {A} (size back : nat) (history : list A) :
  (back + size <= length history)%nat ->
  length (window_ending size back history) = size.
Proof.
  intros Hn. unfold window_ending. rewrite length_skipn, length_firstn. lia.
Qed.

Lemma drop_last_then_rest {A} (l : list A) (a b : nat) :
  (a + b <= length l)%nat ->
  firstn (length (skipn a l) - b) (skipn a l) = skipn a (firstn (length l - b) l).
Proof.
  intros Hab. rewrite length_skipn, take_drop_commute. f_equal. f_equal. lia.
Qed.

Lemma last_of_window {A} (history : list A) (size back k : nat) :
  (1 <= k <= size)%nat -> (back + size <= length history)%nat ->
  slice (window_ending size back history) (Some (- Z.of_nat k)) None =
  window_ending k back history.
Proof.
  intros Hk Hn. rewrite slice_last
    by (unfold len; rewrite ?window_ending_length; lia).
  rewrite window_ending_length by lia. unfold window_ending.
  rewrite drop_drop. f_equal. lia.
Qed.

Section Windows.
Import SMACrossover.
Variables (cfg : SMAConfig) (history : list PriceBarEvent).
Let fast := Z.to_nat (fast_period cfg).
Let slow := Z.to_nat (slow_period cfg).
Let bars := skipn (length history - (slow + 1)) history.

Hypothesis fast_valid : 1 <= fast_period cfg.
Hypothesis fast_below_slow : fast_period cfg < slow_period cfg.
Hypothesis enough_history : slow_period cfg + 1 <= len history.

Lemma served_bars (c : Context) (sym : string) :
  get_bars (context_at history c) sym (slow_period cfg + 1) = Some bars /\
  len bars = slow_period cfg + 1.
Proof.
  cbn [get_bars context_at].
  destruct (Z.leb_spec (slow_period cfg + 1) 0); [lia|].
  rewrite slice_last by lia. unfold bars, slow, len in *.
  split; [do 2 f_equal; lia | rewrite length_skipn; lia].
Qed.

Lemma current_bars_window :
  slice bars None (Some (-1)) = window_ending slow 1 history.
Proof.
  change (-1) with (Z.opp 1).
  rewrite slice_drop_last by lia. unfold window_ending, bars, slow, len in *.
  change (Z.to_nat 1) with 1%nat.
  rewrite drop_last_then_rest by lia. f_equal. lia.
Qed.

Lemma prev_bars_window :
  slice bars None (Some (-2)) = window_ending (slow - 1) 2 history.
Proof.
  change (-2) with (Z.opp 2).
  rewrite slice_drop_last by lia. unfold window_ending, bars, slow, len in *.
  change (Z.to_nat 2) with 2%nat.
  rewrite drop_last_then_rest by lia. f_equal. lia.
Qed.

End Windows.

(** C2 (what the code does). When [on_bar] decides at bar [t], with at
    least [slow_period + 1] bars of history and
    [1 <= fast_period < slow_period], none of its four windows contains
    bar [t].  The current fast and slow windows are the [fast_period]
    and the [slow_period] bars ending at bar [t - 1], and the previous
    fast window is the [fast_period] bars ending at bar [t - 2]; but the
    previous slow window is only the [slow_period - 1] bars ending at
    bar [t - 2], one bar fewer than the slow period. *)
Theorem crossover_windows (cfg : SMACrossover.SMAConfig)
    (history : list PriceBarEvent) (c : Context) (sym : string) :
  1 <= SMACrossover.fast_period cfg ->
  SMACrossover.fast_period cfg < SMACrossover.slow_period cfg ->
  SMACrossover.slow_period cfg + 1 <= len history ->
  let fast := Z.to_nat (SMACrossover.fast_period cfg) in
  let slow := Z.to_nat (SMACrossover.slow_period cfg) in
  exists bars,
    get_bars (context_at history c) sym (SMACrossover.slow_period cfg + 1) = Some bars /\
    (len bars <? SMACrossover.slow_period cfg + 1) = false /\
    SMACrossover.current_fast_prices cfg bars = map close (window_ending fast 1 history) /\
    SMACrossover.current_slow_prices cfg bars = map close (window_ending slow 1 history) /\
    SMACrossover.prev_fast_prices cfg bars = map close (window_ending fast 2 history) /\
    SMACrossover.prev_slow_prices cfg bars =
      map close (window_ending (slow - 1) 2 history) /\
    length (SMACrossover.current_fast_prices cfg bars) = fast /\
    length (SMACrossover.current_slow_prices cfg bars) = slow /\
    length (SMACrossover.prev_fast_prices cfg bars) = fast /\
    length (SMACrossover.prev_slow_prices cfg bars) = (slow - 1)%nat.
Proof.
  intros Hfast Hlt Hlen fast slow.
  destruct (served_bars cfg history Hfast Hlt Hlen c sym) as [Hbars Hn].
  eexists. split; [exact Hbars|].
  split; [apply Z.ltb_ge; lia|].
  unfold SMACrossover.current_fast_prices, SMACrossover.current_slow_prices,
         SMACrossover.prev_fast_prices, SMACrossover.prev_slow_prices.
  rewrite (current_bars_window cfg history Hfast Hlt Hlen),
          (prev_bars_window cfg history Hfast Hlt Hlen).
  replace (SMACrossover.fast_period cfg) with (Z.of_nat fast) by (unfold fast; lia).
  unfold len in Hlen.
  rewrite !last_of_window by (unfold fast, slow in *; lia).
  rewrite !length_map, !window_ending_length by (unfold fast, slow in *; lia).
  repeat split; reflexivity.
Qed.

Lemma crossover_windows_witness :
  exists bars,
    get_bars (context_at (firstn 5 rising_bars) empty_context) "AAPL" (3 + 1) = Some bars /\
    SMACrossover.current_slow_prices scenario_B_config bars = [2; 3; 4]%Q /\
    SMACrossover.prev_fast_prices scenario_B_config bars = [2; 3]%Q /\
    SMACrossover.prev_slow_prices scenario_B_config bars = [2; 3]%Q.
Proof.
  destruct (crossover_windows scenario_B_config (firstn 5 rising_bars)
              empty_context "AAPL")
    as (bars & Hbars & _ & _ & Hcs & Hpf & Hps & _);
    [vm_compute; discriminate | reflexivity | vm_compute; discriminate |].
  exists bars. split; [exact Hbars|].
  split; [exact Hcs|]. split; [exact Hpf | exact Hps].
Defined.

(** On a steadily rising series the fast mean of the earlier closes is
    above the slow one at every bar from the fourth on, so it never
    crosses; with the short previous slow window the strategy still
    reports a golden cross at each of these bars. *)
Example rising_series_spurious_cross :
  scenario_B_outputs rising_bars =
    [[]; []; []; [OPEN_LONG]; [OPEN_LONG]; [OPEN_LONG]] /\
  fast_exceeds_slow 2 3 (map close rising_bars) 3 /\
  fast_exceeds_slow 2 3 (map close rising_bars) 4 /\
  fast_exceeds_slow 2 3 (map close rising_bars) 5.
Proof. vm_compute. repeat split; reflexivity. Qed.

(** ** Scenario B *)

Lemma scenario_B_emits_nothing :
  scenario_B_outputs scenario_B_bars = [[]; []; []; []; []; []; []].
Proof. vm_compute. reflexivity. Qed.

(** C5, as stated, fails: the seven bars emit no open-long at all. *)
Lemma scenario_B_counterexample : ~ scenario_B_as_stated.
Proof.
  intros (t & Ht & _ & _ & Hout & _).
  rewrite scenario_B_emits_nothing in Hout.
  do 7 (destruct t as [|t]; [discriminate Hout|]). lia.
Qed.

(** C5, amended. The trend follower with periods 2 and 3, starting Flat
    and fed the seven closes 10, 10, 10, 10, 9, 11, 11, emits no
    intention at any of the seven bars: at none of them does the 2-bar
    mean of the strictly earlier closes exceed their 3-bar mean.  The
    first bar at which it does is an eighth one, whatever that bar is,
    and there the strategy detects the upward cross and emits an
    open-long, its only intention. *)
Theorem scenario_B_amended (eighth : PriceBarEvent) :
  scenario_B_outputs scenario_B_bars = [[]; []; []; []; []; []; []] /\
  (forall t, (t < 7)%nat -> ~ fast_exceeds_slow 2 3 scenario_B_closes t) /\
  fast_exceeds_slow 2 3 (scenario_B_closes ++ [close eighth]) 7 /\
  scenario_B_outputs (scenario_B_bars ++ [eighth]) =
    [[]; []; []; []; []; []; []; [OPEN_LONG]].
Proof.
  split; [exact scenario_B_emits_nothing|].
  split.
  { intros t Ht.
    do 7 (destruct t as [|t]; [vm_compute; intuition discriminate|]). lia. }
  split; [vm_compute; reflexivity|].
  vm_compute. reflexivity.
Qed.

(** * Further properties of the library *)

(** ** The indicators between calls *)

Ltac destruct_outcomes :=
  repeat match goal with
  | |- context [match ?x with Ok _ => _ | Raise _ => _ end] => destruct x; cbn
  end.

Lemma single_update_state {val} `{Num.Ops val}
    (self : MyCustomIndicator.t val) (bar : Bar val) :
  let after := snd (MyCustomIndicator.update bar self) in
  MyCustomIndicator._prices after = MyCustomIndicator._prices self ++ [close bar] /\
  MyCustomIndicator.period after = MyCustomIndicator.period self /\
  MyCustomIndicator.multiplier after = MyCustomIndicator.multiplier self.
Proof.
  unfold MyCustomIndicator.update. unfold_monad. cbn.
  destruct (_ <? _); [auto|]. destruct_outcomes; auto.
Qed.

Lemma bands_update_state {val} `{Num.Ops val}
    (self : MyCustomMultiValueIndicator.t val) (bar : Bar val) :
  let after := snd (MyCustomMultiValueIndicator.update bar self) in
  MyCustomMultiValueIndicator._prices after =
    MyCustomMultiValueIndicator._prices self ++ [close bar] /\
  MyCustomMultiValueIndicator.period after = MyCustomMultiValueIndicator.period self /\
  MyCustomMultiValueIndicator.num_std after = MyCustomMultiValueIndicator.num_std self.
Proof.
  unfold MyCustomMultiValueIndicator.update. unfold_monad. cbn.
  destruct (_ <? _); [auto|]. destruct_outcomes; auto.
Qed.

Lemma single_feed_state {val} `{Num.Ops val} (bars : list (Bar val)) :
  forall self : MyCustomIndicator.t val,
  let after := snd (feed MyCustomIndicator.update bars self) in
  MyCustomIndicator._prices after =
    MyCustomIndicator._prices self ++ map close bars /\
  MyCustomIndicator.period after = MyCustomIndicator.period self /\
  MyCustomIndicator.multiplier after = MyCustomIndicator.multiplier self.
Proof.
  induction bars as [|b bars IH]; intros self; cbn [feed].
  - cbn. rewrite app_nil_r. auto.
  - pose proof (single_update_state self b) as (Hp & HN & Hm).
    destruct (MyCustomIndicator.update b self) as [r s1]. cbn [snd] in *.
    specialize (IH s1). destruct (feed MyCustomIndicator.update bars s1) as [rs s2].
    cbn [snd] in *. destruct IH as (IHp & IHN & IHm).
    rewrite IHp, Hp, <- app_assoc, IHN, IHm, HN, Hm. auto.
Qed.

Lemma bands_feed_state {val} `{Num.Ops val} (bars : list (Bar val)) :
  forall self : MyCustomMultiValueIndicator.t val,
  let after := snd (feed MyCustomMultiValueIndicator.update bars self) in
  MyCustomMultiValueIndicator._prices after =
    MyCustomMultiValueIndicator._prices self ++ map close bars /\
  MyCustomMultiValueIndicator.period after = MyCustomMultiValueIndicator.period self /\
  MyCustomMultiValueIndicator.num_std after = MyCustomMultiValueIndicator.num_std self.
Proof.
  induction bars as [|b bars IH]; intros self; cbn [feed].
  - cbn. rewrite app_nil_r. auto.
  - pose proof (bands_update_state self b) as (Hp & HN & Hm).
    destruct (MyCustomMultiValueIndicator.update b self) as [r s1]. cbn [snd] in *.
    specialize (IH s1).
    destruct (feed MyCustomMultiValueIndicator.update bars s1) as [rs s2].
    cbn [snd] in *. destruct IH as (IHp & IHN & IHm).
    rewrite IHp, Hp, <- app_assoc, IHN, IHm, HN, Hm. auto.
Qed.

(** X1. Neither indicator ever drops a stored price: after any sequence
    of [update()] calls on any instance, also calls that raise, the
    stored list is the old one followed by the close of every bar fed,
    so it grows by one entry per call and is not trimmed to the period;
    the parameters stay as they were. *)
Theorem price_history_only_grows {val} `{Num.Ops val} (bars : list (Bar val)) :
  (forall self : MyCustomIndicator.t val,
     let after := snd (feed MyCustomIndicator.update bars self) in
     MyCustomIndicator._prices after =
       MyCustomIndicator._prices self ++ map close bars /\
     len (MyCustomIndicator._prices after) =
       len (MyCustomIndicator._prices self) + len bars /\
     MyCustomIndicator.period after = MyCustomIndicator.period self /\
     MyCustomIndicator.multiplier after = MyCustomIndicator.multiplier self) /\
  (forall self : MyCustomMultiValueIndicator.t val,
     let after := snd (feed MyCustomMultiValueIndicator.update bars self) in
     MyCustomMultiValueIndicator._prices after =
       MyCustomMultiValueIndicator._prices self ++ map close bars /\
     len (MyCustomMultiValueIndicator._prices after) =
       len (MyCustomMultiValueIndicator._prices self) + len bars /\
     MyCustomMultiValueIndicator.period after =
       MyCustomMultiValueIndicator.period self /\
     MyCustomMultiValueIndicator.num_std after =
       MyCustomMultiValueIndicator.num_std self).
Proof.
  split; intros self after.
  - destruct (single_feed_state bars self) as (Hp & HN & Hm). fold after in Hp, HN, Hm.
    rewrite Hp, len_app. unfold len at 2 4. rewrite length_map. auto.
  - destruct (bands_feed_state bars self) as (Hp & HN & Hm). fold after in Hp, HN, Hm.
    rewrite Hp, len_app. unfold len at 2 4. rewrite length_map. auto.
Qed.

Lemma rolling_cases {val A} (f : list val -> result A) (N : Z)
    (prices : list val) (i : nat) :
  (Z.of_nat i < N - 1 /\ spec_rolling f N prices i = Ok None) \/
  (N - 1 <= Z.of_nat i /\
   ((exists v, spec_rolling f N prices i = Ok (Some v)) \/
    (exists e, spec_rolling f N prices i = Raise e))).
Proof.
  unfold spec_rolling.
  destruct (Z.ltb_spec (Z.of_nat i) (N - 1)); [left; auto|right].
  split; [assumption|]. unfold_monad.
  destruct (f _); [left|right]; eexists; reflexivity.
Qed.

(** X2. After an [update()] on an instance with a valid period,
    [is_ready] tells whether at least [period] prices are stored, and
    neither property changes the object.  If the call returned, [value]
    gives back what it returned, which is [None] exactly when fewer than
    [period] prices are stored.  If the call raised, the price is stored
    all the same, [is_ready] is true, and [value] still gives the value
    cached before the call. *)
Theorem value_and_readiness {val} `{Num.Ops val} :
  (forall (self : MyCustomIndicator.t val) (bar : Bar val),
     1 <= MyCustomIndicator.period self ->
     let r := fst (MyCustomIndicator.update bar self) in
     let after := snd (MyCustomIndicator.update bar self) in
     let stored := len (MyCustomIndicator._prices self) + 1 in
     MyCustomIndicator.is_ready after =
       (Ok (stored >=? MyCustomIndicator.period self), after) /\
     snd (MyCustomIndicator.value after) = after /\
     (forall v, r = Ok v ->
        fst (MyCustomIndicator.value after) = Ok v /\
        (v = None <-> stored < MyCustomIndicator.period self)) /\
     (forall e, r = Raise e ->
        fst (MyCustomIndicator.value after) = fst (MyCustomIndicator.value self) /\
        MyCustomIndicator.period self <= stored)) /\
  (forall (self : MyCustomMultiValueIndicator.t val) (bar : Bar val),
     1 <= MyCustomMultiValueIndicator.period self ->
     let r := fst (MyCustomMultiValueIndicator.update bar self) in
     let after := snd (MyCustomMultiValueIndicator.update bar self) in
     let stored := len (MyCustomMultiValueIndicator._prices self) + 1 in
     MyCustomMultiValueIndicator.is_ready after =
       (Ok (stored >=? MyCustomMultiValueIndicator.period self), after) /\
     snd (MyCustomMultiValueIndicator.value after) = after /\
     (forall v, r = Ok v ->
        fst (MyCustomMultiValueIndicator.value after) = Ok v /\
        (v = None <-> stored < MyCustomMultiValueIndicator.period self)) /\
     (forall e, r = Raise e ->
        fst (MyCustomMultiValueIndicator.value after) =
          fst (MyCustomMultiValueIndicator.value self) /\
        MyCustomMultiValueIndicator.period self <= stored)).
Proof.
  split; intros self bar HN r after stored; subst r after stored.
  - rewrite SingleValue.update_ok by exact HN. cbn [fst snd].
    unfold MyCustomIndicator.is_ready, MyCustomIndicator.value. unfold_monad.
    cbn [fst snd MyCustomIndicator._prices MyCustomIndicator.period
         MyCustomIndicator._current_value].
    rewrite len_app. change (len [close bar]) with 1.
    split; [reflexivity|]. split; [reflexivity|].
    unfold expected_value.
    destruct (rolling_cases (spec_scaled_mean (MyCustomIndicator.multiplier self))
                (MyCustomIndicator.period self)
                (MyCustomIndicator._prices self ++ [close bar])
                (length (MyCustomIndicator._prices self)))
      as [[Hi ->]|[Hi [[v ->]|[e ->]]]]; unfold len; split.
    + intros v [= <-]. split; [reflexivity|]. split; [lia|reflexivity].
    + intros e. discriminate.
    + intros v' [= <-]. split; [reflexivity|]. split; [discriminate|lia].
    + intros e. discriminate.
    + intros v. discriminate.
    + intros e' _. split; [reflexivity|lia].
  - rewrite MultiValue.bands_update_ok by exact HN. cbn [fst snd].
    unfold MyCustomMultiValueIndicator.is_ready, MyCustomMultiValueIndicator.value.
    unfold_monad.
    cbn [fst snd MyCustomMultiValueIndicator._prices MyCustomMultiValueIndicator.period
         MyCustomMultiValueIndicator._current_value].
    rewrite len_app. change (len [close bar]) with 1.
    split; [reflexivity|]. split; [reflexivity|].
    unfold expected_bands.
    destruct (rolling_cases (spec_bands (MyCustomMultiValueIndicator.num_std self))
                (MyCustomMultiValueIndicator.period self)
                (MyCustomMultiValueIndicator._prices self ++ [close bar])
                (length (MyCustomMultiValueIndicator._prices self)))
      as [[Hi ->]|[Hi [[v ->]|[e ->]]]]; unfold len; split.
    + intros v [= <-]. split; [reflexivity|]. split; [lia|reflexivity].
    + intros e. discriminate.
    + intros v' [= <-]. split; [reflexivity|]. split; [discriminate|lia].
    + intros e. discriminate.
    + intros v. discriminate.
    + intros e' _. split; [reflexivity|lia].
Qed.

Lemma value_and_readiness_witness :
  let self := MyCustomIndicator.mk 2 (PyFloat 1) [PyDecimal 10] (Some (PyFloat 7)) in
  let bar := decimal_bar (sample_bar "2024-11-05T00:00:00Z" 12) in
  fst (MyCustomIndicator.update bar self) = Raise TypeError /\
  MyCustomIndicator.is_ready (snd (MyCustomIndicator.update bar self)) =
    (Ok true, snd (MyCustomIndicator.update bar self)) /\
  fst (MyCustomIndicator.value (snd (MyCustomIndicator.update bar self))) =
    Ok (Some (PyFloat 7)).
Proof.
  intros self bar.
  assert (Hr : fst (MyCustomIndicator.update bar self) = Raise TypeError)
    by (vm_compute; reflexivity).
  split; [exact Hr|].
  destruct (proj1 value_and_readiness self bar ltac:(cbn; lia))
    as (Hready & _ & _ & Hraised).
  split; [exact Hready|].
  destruct (Hraised TypeError Hr) as [Hvalue _]. exact Hvalue.
Defined.

(** X3. In batch mode a value never depends on later bars: whenever
    [calculate()] returns on a list of bars, it also returns on every
    prefix of it, and what it returns there is the corresponding prefix
    of the values. *)
Theorem calculate_has_no_lookahead {val} `{Num.Ops val}
    (bars later : list (Bar val)) :
  (forall (self : MyCustomIndicator.t val) values,
     1 <= MyCustomIndicator.period self ->
     fst (MyCustomIndicator.calculate (bars ++ later) self) = Ok values ->
     fst (MyCustomIndicator.calculate bars self) = Ok (firstn (length bars) values)) /\
  (forall (self : MyCustomMultiValueIndicator.t val) values,
     1 <= MyCustomMultiValueIndicator.period self ->
     fst (MyCustomMultiValueIndicator.calculate (bars ++ later) self) = Ok values ->
     fst (MyCustomMultiValueIndicator.calculate bars self) =
       Ok (firstn (length bars) values)).
Proof.
  split; intros self values HN.
  - rewrite !SingleValue.calculate_ok by exact HN. cbn [fst].
    rewrite length_app, seq_app, map_app, map_app.
    rewrite !collect_ok. intros Hall.
    apply (f_equal (firstn (length bars))) in Hall.
    rewrite firstn_app in Hall.
    rewrite length_map, length_seq, Nat.sub_diag, firstn_O, app_nil_r in Hall.
    rewrite firstn_all2 in Hall by (rewrite length_map, length_seq; lia).
    rewrite firstn_map in Hall. rewrite <- Hall.
    apply map_ext_in. intros i Hi. apply in_seq in Hi.
    symmetry. apply SingleValue.expected_app. rewrite length_map. lia.
  - rewrite !MultiValue.bands_calculate_ok by exact HN. cbn [fst].
    rewrite length_app, seq_app, map_app, map_app.
    rewrite !collect_ok. intros Hall.
    apply (f_equal (firstn (length bars))) in Hall.
    rewrite firstn_app in Hall.
    rewrite length_map, length_seq, Nat.sub_diag, firstn_O, app_nil_r in Hall.
    rewrite firstn_all2 in Hall by (rewrite length_map, length_seq; lia).
    rewrite firstn_map in Hall. rewrite <- Hall.
    apply map_ext_in. intros i Hi. apply in_seq in Hi.
    symmetry. apply MultiValue.expected_bands_app. rewrite length_map. lia.
Qed.

Lemma calculate_has_no_lookahead_witness :
  let self := MyCustomIndicator.mk 2 (PyDecimal 1) [] None in
  fst (MyCustomIndicator.calculate (firstn 2 decimal_bars) self) =
    Ok [None; Some (PyDecimal (22 # 2))].
Proof.
  intros self.
  apply (proj1 (calculate_has_no_lookahead (firstn 2 decimal_bars)
                  (skipn 2 decimal_bars)) self
           [None; Some (PyDecimal (22 # 2)); Some (PyDecimal (23 # 2));
            Some (PyDecimal (26 # 2))]).
  - cbn. lia.
  - vm_compute. reflexivity.
Defined.

(** ** The decision of the crossover strategy *)

Section CrossoverDecision.
Import SMACrossover.
Variables (self : t) (ctx : Context) (event : PriceBarEvent).
Let cfg := config self.


End CrossoverDecision.













(** ** What the crossover strategy never does *)


(** ** Degenerate periods *)





(** ** The weekly strategy on bars it cannot use *)



(** ** The shape of a week key *)

Lemma append_length (a b : string) :
  String.length (a +:+ b) = (String.length a + String.length b)%nat.
Proof.
  induction a as [|c a IH]; [reflexivity|].
  change (String c a +:+ b) with (String c (a +:+ b)).
  cbn [String.length]. rewrite IH. reflexivity.
Qed.

Lemma format_02d_two_digits (week : Z) :
  1 <= week <= 53 -> String.length (format_02d week) = 2%nat.
Proof.
  intros Hw.
  assert (Hn : exists n : nat, week = Z.of_nat n /\ (n <= 53)%nat)
    by (exists (Z.to_nat week); lia).
  destruct Hn as (n & -> & Hn).
  do 54 (destruct n as [|n]; [vm_compute; lia || reflexivity|]). lia.
Qed.

(** X9. For a valid date the week key is the ISO year, which is the
    calendar year of the date or a neighbour of it, followed by [-W] and
    a week number between 1 and 53 written with two digits. *)
Theorem week_key_shape (d : datetime.t) :
  valid_date d ->
  let '(year, week) := iso_year_week d in
  datetime.year d - 1 <= year <= datetime.year d + 1 /\
  1 <= week <= 53 /\
  WeeklyMondayFriday._get_week_key d = pretty year +:+ "-W" +:+ format_02d week /\
  String.length (format_02d week) = 2%nat /\
  String.length (WeeklyMondayFriday._get_week_key d)
  = (String.length (pretty year) + 4)%nat.
Proof.
  intros Hv. pose proof (isocalendar_spec d Hv) as Hspec.
  assert (Hyear : let '(y, _, _) := datetime.isocalendar d in
                  datetime.year d - 1 <= y <= datetime.year d + 1).
  { unfold datetime.isocalendar. cbv zeta.
    destruct (_ <? 0); [lia|]. destruct (_ && _); lia. }
  unfold iso_year_week, WeeklyMondayFriday._get_week_key.
  destruct (datetime.isocalendar d) as [[y w] wd].
  destruct Hspec as (Hin & Hw & _).
  assert (Hweek : 1 <= w <= 53).
  { pose proof (week1monday_spec y) as [? ?].
    pose proof (week1monday_spec (y + 1)) as [? ?].
    pose proof (year_length y) as Hy.
    destruct (datetime._is_leap y); subst w; Z.div_mod_to_equations; lia. }
  pose proof (format_02d_two_digits w Hweek) as Hlen.
  split; [exact Hyear|]. split; [exact Hweek|]. split; [reflexivity|].
  split; [exact Hlen|].
  rewrite !append_length, Hlen. reflexivity.
Qed.

Lemma week_key_shape_witness :
  WeeklyMondayFriday._get_week_key (datetime.mk 2024 12 30 9 30 0) = "2025-W01" /\
  String.length (WeeklyMondayFriday._get_week_key (datetime.mk 2024 12 30 9 30 0))
  = 8%nat.
Proof.
  pose proof (week_key_shape (datetime.mk 2024 12 30 9 30 0) eq_refl) as H.
  change (iso_year_week (datetime.mk 2024 12 30 9 30 0)) with (2025, 1) in H.
  destruct H as (_ & _ & Hkey & _ & Hlen).
  split; [exact Hkey | exact Hlen].
Defined.
